(** * Bastion-Website: the Material radio widget and the document shell

    A shallow embedding of the vendored MDL radio component (radio.js) and
    of the static-site document shell (the [HTML] component), with the
    properties of the repository's specification stated and settled over
    it.

    The widget is DOM code: its methods read and write a shared, mutable
    document.  The document is modelled as an explicit store, a list of
    container elements in document order, each owning the control that
    [querySelector('.mdl-radio__button')] finds in it; the structure of the
    document is fixed, only properties, class lists, listeners and appended
    decoration change.  An instance is identified by the position of its
    container.  Every method is a function from the page to a completion,
    normal or thrown, carrying the page it leaves behind. *)

From Stdlib Require Import QArith.
From stdpp Require Import base list strings.

Local Open Scope string_scope.

(** ** The platform: class lists, controls, elements *)

(** [DOMTokenList]: an ordered set of class names. *)
Definition contains (c : string) (l : list string) : bool := bool_decide (c ∈ l).

Definition add (c : string) (l : list string) : list string :=
  if contains c l then l else l ++ [c].

Definition remove (c : string) (l : list string) : list string :=
  filter (λ x, x ≠ c) l.

(** The four event handlers of the prototype, as bound to an instance
    ([onX_.bind(this)]); the instance is the one owning the node the
    listener is attached under. *)
Inductive Handler := bound_onChange_ | bound_onFocus_ | bound_onBlur_ | bound_onMouseup_.

Definition Listener : Type := string * Handler.

(** The native control ([<input type="radio">]).  [attr_name] is the result
    of [getAttribute('name')] ([None] for [null]); [form_owner] is the form
    the control belongs to, if any. *)
Record Input := {
  attr_name : option string;
  form_owner : option nat;
  checked : bool;
  disabled : bool;
  focused : bool;
  input_listeners : list Listener
}.

(** Nodes created by [document.createElement('span')]. *)
#[warnings="-register-all"] Inductive Span :=
  span (span_classList : list string) (span_listeners : list Listener)
       (span_children : list Span).

Definition span_listeners_of (s : Span) : list Listener :=
  match s with span _ ls _ => ls end.

(** A container element.  [button] is what
    [querySelector('.mdl-radio__button')] finds in it, [appended] the child
    nodes added by [appendChild], [prop_MaterialRadio] whether the element's
    ['MaterialRadio'] property is defined (the registry sets it for widgets). *)
Record Element := {
  classList : list string;
  appended : list Span;
  button : option Input;
  listeners : list Listener;
  prop_MaterialRadio : bool
}.

(** A pending [window.setTimeout] call: the instance whose control the
    callback blurs, and the requested delay in milliseconds. *)
Record Timer := { timer_this : nat; timer_delay : Q }.

Record Page := { document : list Element; timers : list Timer }.

Definition with_classList (l : list string) (e : Element) : Element :=
  {| classList := l; appended := appended e; button := button e;
     listeners := listeners e; prop_MaterialRadio := prop_MaterialRadio e |}.

Definition with_appended (l : list Span) (e : Element) : Element :=
  {| classList := classList e; appended := l; button := button e;
     listeners := listeners e; prop_MaterialRadio := prop_MaterialRadio e |}.

Definition with_button (b : option Input) (e : Element) : Element :=
  {| classList := classList e; appended := appended e; button := b;
     listeners := listeners e; prop_MaterialRadio := prop_MaterialRadio e |}.

Definition with_listeners (l : list Listener) (e : Element) : Element :=
  {| classList := classList e; appended := appended e; button := button e;
     listeners := l; prop_MaterialRadio := prop_MaterialRadio e |}.

Definition with_prop_MaterialRadio (v : bool) (e : Element) : Element :=
  {| classList := classList e; appended := appended e; button := button e;
     listeners := listeners e; prop_MaterialRadio := v |}.

Definition with_checked (v : bool) (b : Input) : Input :=
  {| attr_name := attr_name b; form_owner := form_owner b; checked := v;
     disabled := disabled b; focused := focused b;
     input_listeners := input_listeners b |}.

Definition with_disabled (v : bool) (b : Input) : Input :=
  {| attr_name := attr_name b; form_owner := form_owner b; checked := checked b;
     disabled := v; focused := focused b;
     input_listeners := input_listeners b |}.

Definition with_focused (v : bool) (b : Input) : Input :=
  {| attr_name := attr_name b; form_owner := form_owner b; checked := checked b;
     disabled := disabled b; focused := v;
     input_listeners := input_listeners b |}.

Definition with_input_listeners (l : list Listener) (b : Input) : Input :=
  {| attr_name := attr_name b; form_owner := form_owner b; checked := checked b;
     disabled := disabled b; focused := focused b;
     input_listeners := l |}.

Definition with_document (d : list Element) (p : Page) : Page :=
  {| document := d; timers := timers p |}.

Definition with_timers (t : list Timer) (p : Page) : Page :=
  {| document := document p; timers := t |}.

(** Replace the element at position [i]. *)
Definition set_element (i : nat) (e : Element) (p : Page) : Page :=
  with_document (<[i := e]> (document p)) p.

(** ** Completions: a method returns normally or throws, and either way
    leaves a page behind. *)
Inductive Completion := Normal (p : Page) | Throw (p : Page).

Definition andThen (c : Completion) (f : Page → Completion) : Completion :=
  match c with
  | Normal p => f p
  | Throw p => Throw p
  end.

Notation "c >> f" := (andThen c f) (at level 61, left associativity).

Definition outcome (c : Completion) : Page :=
  match c with Normal p | Throw p => p end.

Definition returns (c : Completion) : bool :=
  match c with Normal _ => true | Throw _ => false end.

(** ** The native [checked] setter of a radio control

    Two radio controls are in the same radio button group (HTML standard,
    "radio button group") when both have a [name] attribute, the names are
    non-empty and equal, and they have the same form owner (or both none).
    All controls of the model are radio inputs in the one document tree. *)
Definition radio_group (a b : Input) : bool :=
  match attr_name a, attr_name b with
  | Some x, Some y =>
      bool_decide (x ≠ EmptyString ∧ x = y ∧ form_owner a = form_owner b)
  | _, _ => false
  end.

Definition input_set_checked (v : bool) (e : Element) : Element :=
  with_button (with_checked v <$> button e) e.

(** Setting the checkedness of control [a] to true sets the checkedness of
    every other control of its group to false. *)
Definition uncheck_if_grouped (a : Input) (e : Element) : Element :=
  match button e with
  | Some b => if radio_group a b then input_set_checked false e else e
  | None => e
  end.

(** [control.checked = v] on the control [a] of the element at [i]. *)
Definition native_set_checked (a : Input) (i : nat) (v : bool)
    (d : list Element) : list Element :=
  imap (λ j e, if bool_decide (j = i) then input_set_checked v e
               else if v then uncheck_if_grouped a e else e) d.

(** ** radio.js *)
Module MaterialRadio.

(** [Constant_] *)
Definition TINY_TIMEOUT : Q := (1 # 1000)%Q.

(** [CssClasses_] *)
Definition IS_FOCUSED := "is-focused".
Definition IS_DISABLED := "is-disabled".
Definition IS_CHECKED := "is-checked".
Definition IS_UPGRADED := "is-upgraded".
Definition JS_RADIO := "mdl-js-radio".
Definition RADIO_BTN := "mdl-radio__button".
Definition RADIO_OUTER_CIRCLE := "mdl-radio__outer-circle".
Definition RADIO_INNER_CIRCLE := "mdl-radio__inner-circle".
Definition RIPPLE_EFFECT := "mdl-js-ripple-effect".
Definition RIPPLE_IGNORE_EVENTS := "mdl-js-ripple-effect--ignore-events".
Definition RIPPLE_CONTAINER := "mdl-radio__ripple-container".
Definition RIPPLE_CENTER := "mdl-ripple--center".
Definition RIPPLE := "mdl-ripple".

(** [this.element_]: the container the instance was constructed on; an
    instance constructed on an absent container ([null]) is one whose
    position holds no element. *)
Definition element_ (this : nat) (p : Page) : option Element :=
  document p !! this.

(** [this.btnElement_]: set by [init] to
    [this.element_.querySelector('.' + RADIO_BTN)], [undefined] without a
    container. *)
Definition btnElement_ (this : nat) (p : Page) : option Input :=
  element_ this p ≫= button.

(** [this.element_.classList.add(c)] and [.remove(c)]. *)
Definition classList_add (this : nat) (c : string) (p : Page) : Completion :=
  match element_ this p with
  | None => Throw p
  | Some e => Normal (set_element this (with_classList (add c (classList e)) e) p)
  end.

Definition classList_remove (this : nat) (c : string) (p : Page) : Completion :=
  match element_ this p with
  | None => Throw p
  | Some e => Normal (set_element this (with_classList (remove c (classList e)) e) p)
  end.

(** [classList.contains(c)] on the element at position [j], false where
    there is none. *)
Definition has_class (c : string) (p : Page) (j : nat) : bool :=
  match document p !! j with
  | Some e => contains c (classList e)
  | None => false
  end.

(** [document.getElementsByClassName(c)] for the marker class, the one
    class [onChange_] asks for: the containers carrying [c], in document
    order (the nodes [init] creates do not carry the marker class and are
    not collected).  The collection is live, but no method adds or removes
    the marker class, so the positions can be taken once. *)
Definition getElementsByClassName (c : string) (p : Page) : list nat :=
  filter (λ j, has_class c p j = true) (seq 0 (length (document p))).

Definition checkDisabled (this : nat) (p : Page) : Completion :=
  match btnElement_ this p with
  | None => Throw p
  | Some b =>
      if disabled b then classList_add this IS_DISABLED p
      else classList_remove this IS_DISABLED p
  end.

Definition checkToggleState (this : nat) (p : Page) : Completion :=
  match btnElement_ this p with
  | None => Throw p
  | Some b =>
      if checked b then classList_add this IS_CHECKED p
      else classList_remove this IS_CHECKED p
  end.

Definition updateClasses_ (this : nat) (p : Page) : Completion :=
  checkDisabled this p >> checkToggleState this.

(** The [for] loop of [onChange_] over the collection [radios].
    [radios[i].querySelector('.' + RADIO_BTN)] is the control of
    [radios[i]]; a [null] there, or an undefined [this.btnElement_], makes
    the comparison throw.  [radios[i]['MaterialRadio']] is the instance of
    [radios[i]]. *)
Fixpoint onChange_loop (this : nat) (radios : list nat) (p : Page) : Completion :=
  match radios with
  | [] => Normal p
  | r :: rest =>
      match btnElement_ r p with
      | None => Throw p
      | Some button =>
          match btnElement_ this p with
          | None => Throw p
          | Some btn =>
              if bool_decide (attr_name button = attr_name btn) then
                (if bool_decide ((prop_MaterialRadio <$> element_ r p) = Some true)
                 then updateClasses_ r p else Normal p)
                >> onChange_loop this rest
              else onChange_loop this rest p
          end
      end
  end.

Definition onChange_ (this : nat) (p : Page) : Completion :=
  onChange_loop this (getElementsByClassName JS_RADIO p) p.

Definition onFocus_ (this : nat) (p : Page) : Completion :=
  classList_add this IS_FOCUSED p.

Definition onBlur_ (this : nat) (p : Page) : Completion :=
  classList_remove this IS_FOCUSED p.

(** [window.setTimeout(callback, delay)]: the call is queued, its handle
    dropped. *)
Definition setTimeout (this : nat) (delay : Q) (p : Page) : Completion :=
  Normal (with_timers (timers p ++ [{| timer_this := this; timer_delay := delay |}]) p).

Definition blur_ (this : nat) (p : Page) : Completion :=
  setTimeout this TINY_TIMEOUT p.

Definition onMouseup_ (this : nat) (p : Page) : Completion :=
  blur_ this p.

(** [this.btnElement_.disabled = v] *)
Definition set_disabled (this : nat) (v : bool) (p : Page) : Completion :=
  match element_ this p, btnElement_ this p with
  | Some e, Some b => Normal (set_element this (with_button (Some (with_disabled v b)) e) p)
  | _, _ => Throw p
  end.

(** [this.btnElement_.checked = v] *)
Definition set_checked (this : nat) (v : bool) (p : Page) : Completion :=
  match btnElement_ this p with
  | Some b => Normal (with_document (native_set_checked b this v (document p)) p)
  | None => Throw p
  end.

Definition disable (this : nat) (p : Page) : Completion :=
  set_disabled this true p >> updateClasses_ this.

Definition enable (this : nat) (p : Page) : Completion :=
  set_disabled this false p >> updateClasses_ this.

Definition check (this : nat) (p : Page) : Completion :=
  set_checked this true p >> onChange_ this.

Definition uncheck (this : nat) (p : Page) : Completion :=
  set_checked this false p >> onChange_ this.

(** The handlers [init] binds. *)
Definition boundChangeHandler_ : Handler := bound_onChange_.
Definition boundFocusHandler_ : Handler := bound_onChange_.
Definition boundBlurHandler_ : Handler := bound_onBlur_.
Definition boundMouseUpHandler_ : Handler := bound_onMouseup_.

(** [this.element_.appendChild(s)] *)
Definition appendChild (this : nat) (s : Span) (p : Page) : Completion :=
  match element_ this p with
  | None => Throw p
  | Some e => Normal (set_element this (with_appended (appended e ++ [s]) e) p)
  end.

(** [this.btnElement_.addEventListener(type, h)] *)
Definition btn_addEventListener (this : nat) (type : string) (h : Handler)
    (p : Page) : Completion :=
  match element_ this p, btnElement_ this p with
  | Some e, Some b =>
      Normal (set_element this
                (with_button (Some (with_input_listeners (input_listeners b ++ [(type, h)]) b)) e) p)
  | _, _ => Throw p
  end.

(** [this.element_.addEventListener(type, h)] *)
Definition addEventListener (this : nat) (type : string) (h : Handler)
    (p : Page) : Completion :=
  match element_ this p with
  | None => Throw p
  | Some e => Normal (set_element this (with_listeners (listeners e ++ [(type, h)]) e) p)
  end.

Definition outerCircle : Span := span (add RADIO_OUTER_CIRCLE []) [] [].
Definition innerCircle : Span := span (add RADIO_INNER_CIRCLE []) [] [].
Definition ripple : Span := span (add RIPPLE []) [] [].
Definition rippleContainer : Span :=
  span (add RIPPLE_CENTER (add RIPPLE_EFFECT (add RIPPLE_CONTAINER [])))
       [("mouseup", boundMouseUpHandler_)] [ripple].

Definition init (this : nat) (p : Page) : Completion :=
  match element_ this p with
  | None => Normal p
  | Some _ =>
      appendChild this outerCircle p
      >> appendChild this innerCircle
      >> (λ p, if has_class RIPPLE_EFFECT p this
               then classList_add this RIPPLE_IGNORE_EVENTS p
                    >> appendChild this rippleContainer
               else Normal p)
      >> btn_addEventListener this "change" boundChangeHandler_
      >> btn_addEventListener this "focus" boundFocusHandler_
      >> btn_addEventListener this "blur" boundBlurHandler_
      >> addEventListener this "mouseup" boundMouseUpHandler_
      >> updateClasses_ this
      >> classList_add this IS_UPGRADED
  end.

End MaterialRadio.

(** ** The platform: events, focus, timers *)

Definition run_handler (h : Handler) (this : nat) (p : Page) : Completion :=
  match h with
  | bound_onChange_ => MaterialRadio.onChange_ this p
  | bound_onFocus_ => MaterialRadio.onFocus_ this p
  | bound_onBlur_ => MaterialRadio.onBlur_ this p
  | bound_onMouseup_ => MaterialRadio.onMouseup_ this p
  end.

(** The listeners registered for [type] run in registration order; an
    exception thrown by one is reported and the dispatch goes on. *)
Definition dispatchEvent (type : string) (ls : list Listener) (this : nat)
    (p : Page) : Page :=
  foldl (λ q l, if bool_decide (l.1 = type) then outcome (run_handler l.2 this q) else q)
        p ls.

Definition button_listeners (this : nat) (p : Page) : list Listener :=
  match MaterialRadio.btnElement_ this p with
  | Some b => input_listeners b
  | None => []
  end.

Definition set_focused (this : nat) (v : bool) (p : Page) : Page :=
  match MaterialRadio.element_ this p with
  | Some e => set_element this (with_button (with_focused v <$> button e) e) p
  | None => p
  end.

(** The control of [this] receives focus: a [focus] event is fired at it. *)
Definition focus_event (this : nat) (p : Page) : Page :=
  dispatchEvent "focus" (button_listeners this p) this (set_focused this true p).

(** [this.btnElement_.blur()]: a focused control loses focus and a [blur]
    event is fired at it; the call throws when there is no control. *)
Definition btnElement_blur (this : nat) (p : Page) : Completion :=
  match MaterialRadio.btnElement_ this p with
  | None => Throw p
  | Some b =>
      if focused b
      then Normal (dispatchEvent "blur" (input_listeners b) this (set_focused this false p))
      else Normal p
  end.

(** The control loses focus (the user moves on, or [blur()] is called). *)
Definition blur_event (this : nat) (p : Page) : Page :=
  outcome (btnElement_blur this p).

(** A [change] event fired at the control of [this]. *)
Definition change_event (this : nat) (p : Page) : Page :=
  dispatchEvent "change" (button_listeners this p) this p.

(** A user-driven change: the platform sets the control's checkedness, then
    fires [change] at it. *)
Definition user_change (this : nat) (v : bool) (p : Page) : Page :=
  match MaterialRadio.btnElement_ this p with
  | Some b => change_event this (with_document (native_set_checked b this v (document p)) p)
  | None => p
  end.

(** A pointer release on the wrapper, or on its [k]-th appended child, from
    where it bubbles to the wrapper. *)
Definition mouseup_on_wrapper (this : nat) (p : Page) : Page :=
  match MaterialRadio.element_ this p with
  | Some e => dispatchEvent "mouseup" (listeners e) this p
  | None => p
  end.

Definition mouseup_on_child (this k : nat) (p : Page) : Page :=
  match MaterialRadio.element_ this p with
  | Some e =>
      match appended e !! k with
      | Some s => dispatchEvent "mouseup" (span_listeners_of s ++ listeners e) this p
      | None => p
      end
  | None => p
  end.

(** The event loop takes the oldest pending timer and runs its callback,
    [function () { this.btnElement_.blur(); }], as a turn of its own. *)
Definition run_timer (p : Page) : Page :=
  match timers p with
  | [] => p
  | t :: rest => outcome (btnElement_blur (timer_this t) (with_timers rest p))
  end.

(** Modelled from the spec: the host registry ([componentHandler], an
    external collaborator) constructs the widget on a matching element,
    [new MaterialRadio(element)], and, the descriptor saying [widget: true],
    stores the instance on the element under ['MaterialRadio']. *)
Definition upgradeElement (this : nat) (p : Page) : Completion :=
  MaterialRadio.init this p
  >> (λ p, match MaterialRadio.element_ this p with
           | Some e => Normal (set_element this (with_prop_MaterialRadio true e) p)
           | None => Normal p
           end).

(** ** html.js: the document shell *)
Module HTML.

(** React elements, as far as the shell builds them: an element with
    props and children, or an element whose content is given by
    [dangerouslySetInnerHTML={{ __html: s }}] ([None] for [undefined]). *)
#[warnings="-register-all"] Inductive VNode :=
  | element (tag : string) (props : list (string * string)) (children : list VNode)
  | innerHTML (tag : string) (props : list (string * string)) (html : option string).

Record Props := {
  htmlAttributes : list (string * string);
  headComponents : list VNode;
  bodyAttributes : list (string * string);
  preBodyComponents : list VNode;
  body : string;
  postBodyComponents : list VNode
}.

(** The outcome of [require('!raw-loader!../public/styles.css')]. *)
Inductive Required := loaded (css : string) | threw (e : string).

(** Module state after the top-level statements: [stylesStr] ([None] for
    [undefined]) and what was written to [console.error]. *)
Record Loaded := { stylesStr : option string; console_error : list string }.

Definition load (NODE_ENV : string) (req : Required) : Loaded :=
  if bool_decide (NODE_ENV = "production") then
    match req with
    | loaded s => {| stylesStr := Some s; console_error := [] |}
    | threw e => {| stylesStr := None; console_error := [e] |}
    end
  else {| stylesStr := None; console_error := [] |}.

(** A child expression [{ x }] whose value may be [undefined]. *)
Definition child (x : option VNode) : list VNode :=
  match x with Some v => [v] | None => [] end.

Definition meta (props : list (string * string)) : VNode := element "meta" props [].
Definition link (props : list (string * string)) : VNode := element "link" props [].

(** The fixed metadata of the head: the [meta] and [link] tags written
    out in [render], in order. *)
Definition head_metadata : list VNode :=
  [ meta [("charSet", "utf-8")];
    meta [("httpEquiv", "x-ua-compatible"); ("content", "ie=edge")];
    meta [("name", "viewport");
          ("content", "width=device-width, shrink-to-fit=no,"
                      ++ " initial-scale=1.0, minimum-scale=1.0")];
    meta [("name", "keywords");
          ("content", "bastion, bastion bot, discord, discord bot, bot, music,"
                      ++ " currency, the best discord bot, best discord bot, best bot,"
                      ++ " stream, game, fun, administration, moderation, queries,"
                      ++ " searches, gambling, game stats, stats, info")];
    meta [("name", "twitter:card"); ("content", "summary_large_image")];
    meta [("name", "twitter:site"); ("content", EmptyString)];
    meta [("name", "twitter:creator"); ("content", "@JimmyJasonDev")];
    meta [("property", "og:site_name"); ("content", "Clara Discord Bot")];
    meta [("property", "og:url"); ("content", "https://claradiscordbot.glitch.me")];
    meta [("property", "og:image:width"); ("content", "1000")];
    meta [("property", "og:image:height"); ("content", "524")];
    meta [("property", "og:type"); ("content", "website")];
    link [("rel", "apple-touch-icon"); ("sizes", "180x180"); ("href", "/apple-touch-icon.png")];
    link [("rel", "shortcut icon"); ("href", EmptyString)];
    link [("rel", "icon"); ("type", "image/x-icon"); ("href", EmptyString)];
    link [("rel", "icon"); ("type", "image/png"); ("sizes", "32x32"); ("href", "/favicon-32x32.png")];
    link [("rel", "icon"); ("type", "image/png"); ("sizes", "16x16"); ("href", "/favicon-16x16.png")];
    link [("rel", "manifest"); ("href", "/site.webmanifest")];
    link [("rel", "mask-icon"); ("href", "/safari-pinned-tab.svg"); ("color", "#40bbfb")];
    meta [("name", "apple-mobile-web-app-title"); ("content", "Clara Discord Bot")];
    meta [("name", "application-name"); ("content", "Clara Discord Bot")];
    meta [("name", "msapplication-TileColor"); ("content", "#070a0c")];
    meta [("name", "theme-color"); ("content", "#070a0c")] ].

Definition render (NODE_ENV : string) (m : Loaded) (props : Props) : VNode :=
  let css :=
    if bool_decide (NODE_ENV = "production")
    then Some (innerHTML "style" [("id", "gatsby-inlined-css")] (stylesStr m))
    else None in
  element "html"
    (htmlAttributes props ++ [("lang", "en-US"); ("prefix", "og: http://ogp.me/ns#")])
    [ element "head" []
        (head_metadata ++ headComponents props ++ child css);
      element "body" (bodyAttributes props)
        (preBodyComponents props
         ++ [innerHTML "div" [("key", "body"); ("id", "___gatsby")] (Some (body props))]
         ++ postBodyComponents props) ].

(** The inlined stylesheet element, recognised by tag and id. *)
Definition is_inlined_css (v : VNode) : bool :=
  match v with
  | innerHTML tag props _ =>
      bool_decide (tag = "style" ∧ props = [("id", "gatsby-inlined-css")])
  | element _ _ _ => false
  end.

Definition head_children (doc : VNode) : list VNode :=
  match doc with
  | element _ _ (element _ _ hc :: _) => hc
  | _ => []
  end.

Definition body_node (doc : VNode) : option VNode :=
  match doc with
  | element _ _ (_ :: b :: _) => Some b
  | _ => None
  end.

Definition html_props (doc : VNode) : list (string * string) :=
  match doc with
  | element _ ps _ => ps
  | innerHTML _ ps _ => ps
  end.

(** The stylesheet text the document inlines: the content of the style
    element rendered last in the head, if there is one and it has text. *)
Definition inlined_stylesheet (doc : VNode) : option string :=
  match last (head_children doc) with
  | Some (innerHTML tag props (Some s)) =>
      if is_inlined_css (innerHTML tag props (Some s)) then Some s else None
  | _ => None
  end.

End HTML.

(** ** Descriptions used in the statements *)

(** What [checkDisabled] and [checkToggleState] do to a class list: the
    class is present exactly when the flag is set. *)
Definition toggle (c : string) (v : bool) (l : list string) : list string :=
  if v then add c l else remove c l.

Definition synced (b : Input) (l : list string) : list string :=
  toggle MaterialRadio.IS_CHECKED (checked b)
    (toggle MaterialRadio.IS_DISABLED (disabled b) l).

(** The effect of [updateClasses_] on the container of an instance. *)
Definition resync (e : Element) : Element :=
  match button e with
  | Some b => with_classList (synced b (classList e)) e
  | None => e
  end.

(** The classes mirror the control. *)
Definition mirrors_checked (e : Element) : bool :=
  match button e with
  | Some b => bool_decide (contains MaterialRadio.IS_CHECKED (classList e) = checked b)
  | None => false
  end.

(** Markup contract: every element carrying the marker class contains a
    control. *)
Definition markup_ok (p : Page) : bool :=
  forallb (λ e, implb (contains MaterialRadio.JS_RADIO (classList e))
                      (bool_decide (is_Some (button e))))
          (document p).

(** A widget instance in the document: a marker element the registry has
    upgraded. *)
Definition is_widget (e : Element) : bool :=
  contains MaterialRadio.JS_RADIO (classList e) && prop_MaterialRadio e.

(** The group-propagation step seen from one element: it is resynchronised
    when it carries the marker class, its control's name attribute equals
    [name] and its widget property is defined. *)
Definition propagate (name : option string) (e : Element) : Element :=
  if contains MaterialRadio.JS_RADIO (classList e)
     && bool_decide (attr_name <$> button e = Some name)
     && prop_MaterialRadio e
  then resync e else e.

(** Controls whose [name] attributes are present and equal. *)
Definition same_name (a b : Input) : bool :=
  match attr_name a, attr_name b with
  | Some x, Some y => bool_decide (x = y)
  | _, _ => false
  end.

Definition listeners_for (type : string) (ls : list Listener) : list Listener :=
  filter (λ l, l.1 = type) ls.

(** Markup of one radio button, before the registry has seen it:
    [<label class="mdl-radio mdl-js-radio"><input type="radio"
    class="mdl-radio__button" name=...></label>]. *)
Definition radio_markup (classes : list string) (name : string)
    (form : option nat) (is_checked : bool) : Element :=
  {| classList := classes; appended := [];
     button := Some {| attr_name := Some name; form_owner := form;
                       checked := is_checked; disabled := false;
                       focused := false; input_listeners := [] |};
     listeners := []; prop_MaterialRadio := false |}.

Definition mdl_radio : list string := ["mdl-radio"; "mdl-js-radio"].

(** Run a sequence of methods, each on the page the previous one left. *)
Definition script (steps : list (Page → Completion)) (p : Page) : Page :=
  foldl (λ q f, outcome (f q)) p steps.

(** The group of the instance [this], whose control is [b] on the page [p]:
    [this] itself and the instances whose controls are [grouped] with [b],
    as far as they are widget instances of the document. *)
Definition group_member (grouped : Input → Input → bool) (this : nat) (b : Input)
    (p : Page) (j : nat) : Prop :=
  ∃ e bj, MaterialRadio.element_ j p = Some e ∧ is_widget e = true
          ∧ button e = Some bj ∧ (j = this ∨ grouped b bj = true).

(** On the page [p'], the class [is-checked] is carried, within the group
    of [this] taken on [p], by [this] alone. *)
Definition only_checked (grouped : Input → Input → bool) (this : nat) (b : Input)
    (p p' : Page) : Prop :=
  ∀ j, group_member grouped this b p j →
       MaterialRadio.has_class MaterialRadio.IS_CHECKED p' j = bool_decide (j = this).

(** An element with its class list erased: what is left is everything a
    class-list write cannot touch. *)
Definition erase_classes (e : Element) : Element := with_classList [] e.

(** The spec's [setChecked(flag)] and [setDisabled(flag)]. *)
Definition setChecked (this : nat) (flag : bool) : Page → Completion :=
  if flag then MaterialRadio.check this else MaterialRadio.uncheck this.

Definition setDisabled (this : nat) (flag : bool) : Page → Completion :=
  if flag then MaterialRadio.disable this else MaterialRadio.enable this.

(** Sample pages.  Three radio buttons named [tier], upgraded by the
    registry, the third with the ripple effect. *)
Definition tier_markup : Page :=
  {| document := [radio_markup mdl_radio "tier" None true;
                  radio_markup mdl_radio "tier" None false;
                  radio_markup ("mdl-js-ripple-effect" :: mdl_radio) "tier" None false];
     timers := [] |}.

Definition tier_page : Page :=
  script [upgradeElement 0; upgradeElement 1; upgradeElement 2] tier_markup.

(** Two forms, each with a radio button named [tier]; both upgraded, then
    the first one checked. *)
Definition two_forms_page : Page :=
  script [upgradeElement 0; upgradeElement 1; MaterialRadio.check 0]
    {| document := [radio_markup mdl_radio "tier" (Some 1) false;
                    radio_markup mdl_radio "tier" (Some 2) false];
       timers := [] |}.

(** A checked, upgraded radio button and a second one of its group that the
    registry has not upgraded (yet); the user then selects the second. *)
Definition late_sibling_page : Page :=
  user_change 1 true
    (script [upgradeElement 0]
       {| document := [radio_markup mdl_radio "tier" None true;
                       radio_markup mdl_radio "tier" None false];
          timers := [] |}).

(** Two pages that differ at most in the classes [is-checked] and
    [is-disabled] of their elements. *)
Definition resync_related (p q : Page) : Prop :=
  timers q = timers p
  ∧ ∀ j, erase_classes <$> MaterialRadio.element_ j q
         = erase_classes <$> MaterialRadio.element_ j p
         ∧ ∀ c, c ≠ MaterialRadio.IS_CHECKED → c ≠ MaterialRadio.IS_DISABLED →
                MaterialRadio.has_class c q j = MaterialRadio.has_class c p j.

(** Every method of the prototype. *)
Definition prototype_methods : list (nat → Page → Completion) :=
  [ MaterialRadio.onChange_; MaterialRadio.onFocus_; MaterialRadio.onBlur_;
    MaterialRadio.onMouseup_; MaterialRadio.updateClasses_; MaterialRadio.blur_;
    MaterialRadio.checkDisabled; MaterialRadio.checkToggleState;
    MaterialRadio.disable; MaterialRadio.enable;
    MaterialRadio.check; MaterialRadio.uncheck; MaterialRadio.init ].

(** The call queued by [blur_] of the instance [this]. *)
Definition blur_timer (this : nat) : Timer :=
  {| timer_this := this; timer_delay := MaterialRadio.TINY_TIMEOUT |}.

(** The style element the shell emits in production mode. *)
Definition inlined_css (text : option string) : HTML.VNode :=
  HTML.innerHTML "style" [("id", "gatsby-inlined-css")] text.

Definition sample_props : HTML.Props :=
  {| HTML.htmlAttributes := [("class", "no-js")];
     HTML.headComponents := [HTML.element "title" [] []];
     HTML.bodyAttributes := [];
     HTML.preBodyComponents := [];
     HTML.body := "<main></main>";
     HTML.postBodyComponents := [HTML.element "script" [("src", "/app.js")] []] |}.

(** ** pages/add/index.js: the "add to server" page *)
Module AddPage.

(** React elements as [render] builds them: an element (a tag or a
    component) with its key, props and children, or a text child. *)
#[warnings="-register-all"] Inductive Node :=
  | el (type : string) (key : option nat) (props : list (string * string))
       (children : list Node)
  | text (s : string).

(** An entry of [versions.json] and the content of [meta.json], as the
    content contract has them. *)
Record Version := { title : string; description : string; url : string; image : string }.

Record Meta := { meta_title : string; meta_description : string; meta_image : string }.

(** The callback of [versions.map]: [(version, i) => <div className='version'
    key={ i }> ... </div>]. *)
Definition card (i : nat) (version : Version) : Node :=
  el "div" (Some i) [("className", "version")]
    [ el "ExternalLink" None [("to", url version)]
        [ el "div" None [("className", "details")]
            [ el "img" None [("src", image version); ("height", "128");
                             ("width", "128"); ("alt", EmptyString)] [];
              el "h4" None [] [text (title version)];
              el "p" None [] [text (description version)] ] ] ].

Definition render (meta : Meta) (versions : list Version) : Node :=
  el "div" None [("id", "add")]
    [ el "SiteHead" None [("title", meta_title meta);
                          ("description", meta_description meta);
                          ("image", meta_image meta)] [];
      el "div" None [("className", "header")]
        [ el "h1" None [] [text "Add Clara to Discord"];
          el "p" None []
            [text "Add Clara to Discord, and give awesome and sweet perks to your Discord server."] ];
      el "div" None [("className", "container")] (imap card versions) ].

Definition children_of (n : Node) : list Node :=
  match n with el _ _ _ cs => cs | text _ => [] end.

Definition key_of (n : Node) : option nat :=
  match n with el _ k _ _ => k | text _ => None end.

(** The cards of a rendered page: the children of its container, the third
    child of the root. *)
Definition cards (page : Node) : list Node :=
  match children_of page with
  | [_; _; container] => children_of container
  | _ => []
  end.

(** Reading a card back: the link target, the image source, the heading
    and the paragraph. *)
Definition version_of (c : Node) : option Version :=
  match c with
  | el _ _ _ [el _ _ [(_, to)] [el _ _ _ [el _ _ ((_, src) :: _) _;
                                          el _ _ _ [text t];
                                          el _ _ _ [text d]]]] =>
      Some {| title := t; description := d; url := to; image := src |}
  | _ => None
  end.

Definition versions_of (page : Node) : option (list Version) :=
  mapM version_of (cards page).

End AddPage.

(** The value a JSX element gets for a prop: of several bindings (a spread
    object followed by props written out) the last one wins. *)
Definition prop_value (key : string) (props : list (string * string)) : option string :=
  snd <$> last (filter (λ kv, kv.1 = key) props).

(** ** Histories of a page

    What can happen to a page: the registry or a script constructs a widget,
    a script calls a public method, the platform delivers an event or runs
    a pending timer. *)
Inductive Step :=
  | construct (this : nat)
  | upgrade (this : nat)
  | call_checkDisabled (this : nat)
  | call_checkToggleState (this : nat)
  | call_disable (this : nat)
  | call_enable (this : nat)
  | call_check (this : nat)
  | call_uncheck (this : nat)
  | event_focus (this : nat)
  | event_blur (this : nat)
  | event_change (this : nat) (v : bool)
  | event_mouseup (this : nat)
  | event_mouseup_child (this k : nat)
  | timer_fires.

Definition run_step (s : Step) (p : Page) : Page :=
  match s with
  | construct this => outcome (MaterialRadio.init this p)
  | upgrade this => outcome (upgradeElement this p)
  | call_checkDisabled this => outcome (MaterialRadio.checkDisabled this p)
  | call_checkToggleState this => outcome (MaterialRadio.checkToggleState this p)
  | call_disable this => outcome (MaterialRadio.disable this p)
  | call_enable this => outcome (MaterialRadio.enable this p)
  | call_check this => outcome (MaterialRadio.check this p)
  | call_uncheck this => outcome (MaterialRadio.uncheck this p)
  | event_focus this => focus_event this p
  | event_blur this => blur_event this p
  | event_change this v => user_change this v p
  | event_mouseup this => mouseup_on_wrapper this p
  | event_mouseup_child this k => mouseup_on_child this k p
  | timer_fires => run_timer p
  end.

Definition run_steps (history : list Step) (p : Page) : Page :=
  foldl (λ q s, run_step s q) p history.

(** A listener that is not [onFocus_]. *)
Definition not_onFocus (l : Listener) : bool :=
  match l.2 with bound_onFocus_ => false | _ => true end.

(** An element that does not carry [is-focused] and none of whose
    listeners (on the container, on its control, on its appended nodes) is
    [onFocus_]. *)
Definition unfocused (e : Element) : bool :=
  negb (contains MaterialRadio.IS_FOCUSED (classList e))
  && forallb not_onFocus (listeners e)
  && match button e with
     | Some b => forallb not_onFocus (input_listeners b)
     | None => true
     end
  && forallb (λ s, forallb not_onFocus (span_listeners_of s)) (appended e).

Definition all_unfocused (p : Page) : bool := forallb unfocused (document p).

(** The classes the widget adds to or removes from a container. *)
Definition own_classes : list string :=
  [MaterialRadio.IS_FOCUSED; MaterialRadio.IS_DISABLED; MaterialRadio.IS_CHECKED;
   MaterialRadio.IS_UPGRADED; MaterialRadio.RIPPLE_IGNORE_EVENTS].

(** The page [q] has as many elements as [p], each with the class [c]
    exactly when it has it on [p]. *)
Definition keeps_class (c : string) (p q : Page) : Prop :=
  length (document q) = length (document p)
  ∧ ∀ j, MaterialRadio.has_class c q j = MaterialRadio.has_class c p j.

(** A page with a marker element that has no control between two upgraded
    radio buttons of one group. *)
Definition broken_page : Page :=
  script [upgradeElement 0; upgradeElement 2]
    {| document := [radio_markup mdl_radio "tier" None false;
                    {| classList := mdl_radio; appended := []; button := None;
                       listeners := []; prop_MaterialRadio := false |};
                    radio_markup mdl_radio "tier" None true];
       timers := [] |}.

(** [broken_page] once the user has selected its first radio button: the
    platform has set the checkedness of the controls, the [change] event
    is about to be delivered. *)
Definition broken_page_selected : Page :=
  outcome (MaterialRadio.set_checked 0 true broken_page).

(** Two upgraded radio buttons named [tier] and one named [plan], the
    first checked in the markup.  A script has then set the checkedness of
    the second and of the third control directly, which fires no event: the
    classes of all three are out of date. *)
Definition stale_page : Page :=
  script [upgradeElement 0; upgradeElement 1; upgradeElement 2;
          MaterialRadio.set_checked 1 true; MaterialRadio.set_checked 2 true]
    {| document := [radio_markup mdl_radio "tier" None true;
                    radio_markup mdl_radio "tier" None false;
                    radio_markup mdl_radio "plan" None false];
       timers := [] |}.

(** Whether a created node, or a node inside it, carries the class [c]. *)
Fixpoint span_carries (c : string) (s : Span) : bool :=
  match s with
  | span cl _ children => contains c cl || existsb (span_carries c) children
  end.


(** * Properties *)

Local Open Scope list_scope.

(** Reduce the sequencing and the record updates, nothing else. *)
Ltac step :=
  cbn [andThen with_classList with_appended with_button with_listeners
       with_prop_MaterialRadio with_input_listeners
       classList appended button listeners prop_MaterialRadio input_listeners].

(** ** Class lists *)
Section class_lists.
Implicit Types (c x : string) (l : list string).

Lemma contains_true c l : contains c l = true ↔ c ∈ l.
Proof. unfold contains. apply bool_decide_eq_true. Qed.

Lemma contains_false c l : contains c l = false ↔ c ∉ l.
Proof. unfold contains. apply bool_decide_eq_false. Qed.

Lemma elem_of_add x c l : x ∈ add c l ↔ x = c ∨ x ∈ l.
Proof.
  unfold add. destruct (contains c l) eqn:Hc.
  - apply contains_true in Hc. split; [auto|]. intros [->|]; done.
  - rewrite elem_of_app, list_elem_of_singleton. tauto.
Qed.

Lemma elem_of_remove x c l : x ∈ remove c l ↔ x ≠ c ∧ x ∈ l.
Proof. unfold remove. by rewrite list_elem_of_filter. Qed.

Lemma add_present c l : c ∈ l → add c l = l.
Proof. intros H. unfold add. apply contains_true in H. by rewrite H. Qed.

Lemma remove_absent c l : c ∉ l → remove c l = l.
Proof.
  unfold remove. induction l as [|y l IH]; intros H; [done|].
  rewrite not_elem_of_cons in H. destruct H as [Hy Hl].
  rewrite filter_cons_True by done. by rewrite IH.
Qed.

Lemma elem_of_toggle x c v l :
  x ∈ toggle c v l ↔ (x = c ∧ v = true) ∨ (x ≠ c ∧ x ∈ l) ∨ (v = true ∧ x ∈ l).
Proof.
  unfold toggle. destruct v.
  - rewrite elem_of_add. destruct (decide (x = c)); intuition congruence.
  - rewrite elem_of_remove. intuition congruence.
Qed.

Lemma toggle_fixed c v l : (c ∈ l ↔ v = true) → toggle c v l = l.
Proof.
  intros H. unfold toggle. destruct v.
  - apply add_present. by apply H.
  - apply remove_absent. intros Hc. by apply H in Hc.
Qed.

Lemma toggle_present c v l : c ∈ toggle c v l ↔ v = true.
Proof. rewrite elem_of_toggle. intuition congruence. Qed.

Lemma toggle_other x c v l : x ≠ c → x ∈ toggle c v l ↔ x ∈ l.
Proof. intros H. rewrite elem_of_toggle. intuition congruence. Qed.

Lemma contains_toggle_other x c v l :
  x ≠ c → contains x (toggle c v l) = contains x l.
Proof.
  intros H. unfold contains. apply bool_decide_ext. by apply toggle_other.
Qed.

Lemma synced_checked b l :
  MaterialRadio.IS_CHECKED ∈ synced b l ↔ checked b = true.
Proof. unfold synced. apply toggle_present. Qed.

Lemma synced_disabled b l :
  MaterialRadio.IS_DISABLED ∈ synced b l ↔ disabled b = true.
Proof.
  unfold synced. rewrite toggle_other by done. apply toggle_present.
Qed.

Lemma synced_other x b l :
  x ≠ MaterialRadio.IS_CHECKED → x ≠ MaterialRadio.IS_DISABLED →
  x ∈ synced b l ↔ x ∈ l.
Proof. intros H1 H2. unfold synced. by rewrite !toggle_other. Qed.

Lemma synced_fixed b l :
  (MaterialRadio.IS_DISABLED ∈ l ↔ disabled b = true) →
  (MaterialRadio.IS_CHECKED ∈ l ↔ checked b = true) →
  synced b l = l.
Proof.
  intros Hd Hc. unfold synced.
  rewrite (toggle_fixed _ _ l Hd). by apply toggle_fixed.
Qed.

Lemma synced_idemp b l : synced b (synced b l) = synced b l.
Proof. apply synced_fixed; [apply synced_disabled | apply synced_checked]. Qed.

End class_lists.

(** ** The store *)
Section store.
Import MaterialRadio.
Implicit Types (p : Page) (e : Element) (b : Input) (this j : nat).

Lemma page_eta p : {| document := document p; timers := timers p |} = p.
Proof. by destruct p. Qed.

Lemma element_set_element_eq this e e' p :
  element_ this p = Some e → element_ this (set_element this e' p) = Some e'.
Proof.
  unfold element_, set_element. simpl. intros H.
  apply list_lookup_insert_eq. by eapply lookup_lt_Some.
Qed.

Lemma element_set_element_ne this j e' p :
  this ≠ j → element_ j (set_element this e' p) = element_ j p.
Proof. intros H. unfold element_, set_element. simpl. by apply list_lookup_insert_ne. Qed.

Lemma set_element_twice this e1 e2 p :
  set_element this e2 (set_element this e1 p) = set_element this e2 p.
Proof. unfold set_element, with_document. simpl. by rewrite list_insert_insert_eq. Qed.

Lemma set_element_same this e p : element_ this p = Some e → set_element this e p = p.
Proof.
  unfold element_, set_element, with_document. intros H.
  rewrite list_insert_id by done. apply page_eta.
Qed.

Lemma btnElement_Some this p b :
  btnElement_ this p = Some b ↔ ∃ e, element_ this p = Some e ∧ button e = Some b.
Proof.
  unfold btnElement_. destruct (element_ this p) as [e|]; simpl.
  - split; [eauto|]. by intros (? & [= <-] & ?).
  - split; [done|]. by intros (? & ? & ?).
Qed.

Lemma btnElement_element this p e :
  element_ this p = Some e → btnElement_ this p = button e.
Proof. unfold btnElement_. by intros ->. Qed.

(** An update of the container of [this] that keeps its control keeps
    every control of the page. *)
Lemma btnElement_set_element this j e e' p :
  element_ this p = Some e → button e' = button e →
  btnElement_ j (set_element this e' p) = btnElement_ j p.
Proof.
  intros He Hb. unfold btnElement_. destruct (decide (this = j)) as [<-|Hne].
  - by rewrite (element_set_element_eq _ e), He.
  - by rewrite element_set_element_ne.
Qed.

Lemma classList_add_spec this c p e :
  element_ this p = Some e →
  classList_add this c p = Normal (set_element this (with_classList (add c (classList e)) e) p).
Proof. unfold classList_add. by intros ->. Qed.

Lemma classList_remove_spec this c p e :
  element_ this p = Some e →
  classList_remove this c p
  = Normal (set_element this (with_classList (remove c (classList e)) e) p).
Proof. unfold classList_remove. by intros ->. Qed.

Lemma checkDisabled_spec this p e b :
  element_ this p = Some e → button e = Some b →
  checkDisabled this p
  = Normal (set_element this
              (with_classList (toggle IS_DISABLED (disabled b) (classList e)) e) p).
Proof.
  intros He Hb. unfold checkDisabled.
  rewrite (btnElement_element _ _ _ He), Hb. unfold toggle.
  destruct (disabled b);
    [by apply classList_add_spec | by apply classList_remove_spec].
Qed.

Lemma checkToggleState_spec this p e b :
  element_ this p = Some e → button e = Some b →
  checkToggleState this p
  = Normal (set_element this
              (with_classList (toggle IS_CHECKED (checked b) (classList e)) e) p).
Proof.
  intros He Hb. unfold checkToggleState.
  rewrite (btnElement_element _ _ _ He), Hb. unfold toggle.
  destruct (checked b);
    [by apply classList_add_spec | by apply classList_remove_spec].
Qed.

Lemma updateClasses_spec this p e b :
  element_ this p = Some e → button e = Some b →
  updateClasses_ this p = Normal (set_element this (resync e) p).
Proof.
  intros He Hb. unfold updateClasses_.
  rewrite (checkDisabled_spec _ _ _ _ He Hb). simpl.
  erewrite checkToggleState_spec;
    [| by eapply element_set_element_eq | exact Hb].
  rewrite set_element_twice. unfold resync. by rewrite Hb.
Qed.

Lemma updateClasses_throws this p :
  btnElement_ this p = None → updateClasses_ this p = Throw p.
Proof. intros H. unfold updateClasses_, checkDisabled. by rewrite H. Qed.

Lemma button_resync e : button (resync e) = button e.
Proof. unfold resync. by destruct (button e) eqn:H. Qed.

Lemma resync_idemp e : resync (resync e) = resync e.
Proof.
  unfold resync. destruct (button e) as [b|] eqn:Hb; simpl; rewrite Hb; [|done].
  unfold with_classList. simpl. by rewrite synced_idemp.
Qed.

End store.

(** ** Group propagation *)
Section propagation.
Import MaterialRadio.
Implicit Types (p : Page) (e : Element) (b : Input) (this j r : nat).

Lemma has_class_true c p j :
  has_class c p j = true ↔ ∃ e, element_ j p = Some e ∧ contains c (classList e) = true.
Proof.
  unfold has_class, element_. destruct (document p !! j) as [e|].
  - split; [eauto|]. by intros (? & [= <-] & ?).
  - split; [done|]. by intros (? & ? & ?).
Qed.

Lemma has_class_element c p j e :
  element_ j p = Some e → has_class c p j = contains c (classList e).
Proof. unfold has_class, element_. by intros ->. Qed.

Lemma button_propagate name e : button (propagate name e) = button e.
Proof. unfold propagate. case_match; [apply button_resync | done]. Qed.

(** One iteration of the loop, on a marker element that has a control. *)
Lemma onChange_loop_cons this r rest p b e br :
  btnElement_ this p = Some b →
  element_ r p = Some e → button e = Some br →
  contains JS_RADIO (classList e) = true →
  onChange_loop this (r :: rest) p
  = onChange_loop this rest (set_element r (propagate (attr_name b) e) p).
Proof.
  intros Hthis He Hbr Hm. simpl.
  rewrite (btnElement_element _ _ _ He), Hbr, Hthis, He.
  unfold propagate. rewrite Hm, Hbr. simpl.
  destruct (decide (attr_name br = attr_name b)) as [Hn|Hn].
  - rewrite (bool_decide_eq_true_2 (attr_name br = _)) by done.
    rewrite (bool_decide_eq_true_2 (Some (attr_name br) = _)) by (by rewrite Hn).
    simpl. destruct (prop_MaterialRadio e) eqn:Hp.
    + rewrite bool_decide_eq_true_2 by done.
      by rewrite (updateClasses_spec _ _ _ _ He Hbr).
    + rewrite bool_decide_eq_false_2 by (by intros [=]). simpl.
      by rewrite set_element_same.
  - rewrite (bool_decide_eq_false_2 (attr_name br = _)) by done.
    rewrite (bool_decide_eq_false_2 (Some (attr_name br) = _)) by congruence.
    simpl. by rewrite set_element_same.
Qed.

Lemma onChange_loop_spec this b radios : ∀ p,
  NoDup radios →
  (∀ r, r ∈ radios → ∃ e, element_ r p = Some e
                           ∧ contains JS_RADIO (classList e) = true
                           ∧ is_Some (button e)) →
  btnElement_ this p = Some b →
  ∃ p', onChange_loop this radios p = Normal p' ∧ timers p' = timers p ∧
    ∀ j, element_ j p'
         = (λ e, if bool_decide (j ∈ radios) then propagate (attr_name b) e else e)
           <$> element_ j p.
Proof.
  induction radios as [|r rest IH]; intros p Hnd Hr Hthis.
  - exists p. split; [done|]. split; [done|]. intros j.
    by destruct (element_ j p).
  - apply NoDup_cons in Hnd as [Hnotin Hnd].
    destruct (Hr r) as (e & He & Hm & [br Hbr]); [left|].
    rewrite (onChange_loop_cons _ _ _ _ _ _ _ Hthis He Hbr Hm).
    set (p1 := set_element r (propagate (attr_name b) e) p).
    destruct (IH p1) as (p' & Hrun & Ht & Hlook); [done | |  |].
    + intros r' Hr'. destruct (Hr r') as (e' & He' & Hm' & Hb'); [by right|].
      exists e'. split; [|done]. unfold p1.
      rewrite element_set_element_ne; [done|]. by intros ->.
    + unfold p1. rewrite (btnElement_set_element _ _ e); [done..|].
      apply button_propagate.
    + exists p'. split; [done|]. split; [done|]. intros j. rewrite Hlook.
      destruct (decide (r = j)) as [<-|Hne].
      * unfold p1. rewrite (element_set_element_eq _ e), He by done. simpl.
        rewrite bool_decide_eq_false_2 by done.
        rewrite bool_decide_eq_true_2; [done|left].
      * unfold p1. rewrite element_set_element_ne by done.
        destruct (element_ j p); [simpl|done]. f_equal.
        apply (f_equal (λ v : bool, if v then _ else _)).
        apply bool_decide_ext. rewrite elem_of_cons.
        split; [by right | by intros [->|?]].
Qed.

Lemma markup_ok_lookup p j e :
  markup_ok p = true → element_ j p = Some e →
  contains JS_RADIO (classList e) = true → is_Some (button e).
Proof.
  unfold markup_ok, element_. intros Hok He Hm.
  rewrite forallb_forall in Hok.
  specialize (Hok e). rewrite Hm in Hok. simpl in Hok.
  apply bool_decide_eq_true in Hok; [done|].
  apply list_elem_of_In. apply list_elem_of_lookup. eauto.
Qed.

Lemma elem_of_getElementsByClassName c p j :
  j ∈ getElementsByClassName c p ↔ has_class c p j = true.
Proof.
  unfold getElementsByClassName. rewrite list_elem_of_filter, elem_of_seq.
  split; [tauto|]. intros H. split; [done|].
  apply has_class_true in H as (e & He & _).
  apply lookup_lt_Some in He. lia.
Qed.

(** The whole step: every element of the document is mapped through
    [propagate], in place. *)
Lemma onChange_spec this p b :
  markup_ok p = true → btnElement_ this p = Some b →
  onChange_ this p
  = Normal (with_document (propagate (attr_name b) <$> document p) p).
Proof.
  intros Hok Hthis. unfold onChange_.
  destruct (onChange_loop_spec this b (getElementsByClassName JS_RADIO p) p)
    as (p' & -> & Ht & Hlook).
  - unfold getElementsByClassName. apply NoDup_filter, NoDup_seq.
  - intros r Hr. apply elem_of_getElementsByClassName, has_class_true in Hr.
    destruct Hr as (e & He & Hm). exists e. split_and!; [done..|].
    by eapply markup_ok_lookup.
  - done.
  - f_equal. destruct p' as [d' t']. unfold with_document. simpl in *.
    f_equal; [|done]. apply list_eq. intros j.
    specialize (Hlook j). unfold element_ in Hlook. simpl in Hlook.
    rewrite Hlook, list_lookup_fmap.
    destruct (document p !! j) as [e|] eqn:He; [simpl|done]. f_equal.
    case_bool_decide as Hin; [done|].
    rewrite elem_of_getElementsByClassName in Hin.
    rewrite (has_class_element _ _ _ e) in Hin by done.
    unfold propagate. by destruct (contains JS_RADIO (classList e)).
Qed.

End propagation.

(** ** Resynchronisation: [checkDisabled], [checkToggleState], [updateClasses_] *)
Section resynchronisation.
Import MaterialRadio.
Implicit Types (p : Page) (e : Element) (b : Input) (this j : nat).

Lemma updateClasses_returns this p :
  returns (updateClasses_ this p) = bool_decide (is_Some (btnElement_ this p)).
Proof.
  destruct (btnElement_ this p) as [b|] eqn:Hb.
  - apply btnElement_Some in Hb as (e & He & Hb).
    rewrite (updateClasses_spec _ _ _ _ He Hb).
    symmetry. by apply bool_decide_eq_true_2.
  - rewrite updateClasses_throws by done.
    symmetry. apply bool_decide_eq_false_2. by intros [? ?].
Qed.

(** C3. [updateClasses_] (the spec's [refreshVisualState]: [checkDisabled]
    followed by [checkToggleState]) is idempotent: for every instance and
    every page, running it a second time on the page the first run left
    (so with no intervening change to the control) gives exactly the
    completion, hence exactly the page and the class list, of the first
    run.  The run returns normally exactly when the instance has its
    control. *)
Theorem updateClasses_idempotent this p :
  updateClasses_ this p >> updateClasses_ this = updateClasses_ this p
  ∧ returns (updateClasses_ this p) = bool_decide (is_Some (btnElement_ this p)).
Proof.
  split; [|apply updateClasses_returns].
  destruct (btnElement_ this p) as [b|] eqn:Hb.
  - apply btnElement_Some in Hb as (e & He & Hb).
    rewrite (updateClasses_spec _ _ _ _ He Hb). simpl.
    rewrite (updateClasses_spec _ (set_element this (resync e) p) (resync e) b).
    + by rewrite set_element_twice, resync_idemp.
    + by eapply element_set_element_eq.
    + by rewrite button_resync.
  - by rewrite updateClasses_throws.
Qed.

Lemma erase_set_element this e e' p j :
  element_ this p = Some e → erase_classes e' = erase_classes e →
  erase_classes <$> element_ j (set_element this e' p)
  = erase_classes <$> element_ j p.
Proof.
  intros He Her. destruct (decide (this = j)) as [<-|Hne].
  - rewrite (element_set_element_eq _ e), He by done. simpl. by rewrite Her.
  - by rewrite element_set_element_ne.
Qed.

Lemma checkDisabled_frame this p j :
  timers (outcome (checkDisabled this p)) = timers p
  ∧ erase_classes <$> element_ j (outcome (checkDisabled this p))
    = erase_classes <$> element_ j p.
Proof.
  destruct (btnElement_ this p) as [b|] eqn:Hb.
  - apply btnElement_Some in Hb as (e & He & Hb).
    rewrite (checkDisabled_spec _ _ _ _ He Hb). simpl. split; [done|].
    by apply (erase_set_element _ e).
  - unfold checkDisabled. by rewrite Hb.
Qed.

Lemma checkToggleState_frame this p j :
  timers (outcome (checkToggleState this p)) = timers p
  ∧ erase_classes <$> element_ j (outcome (checkToggleState this p))
    = erase_classes <$> element_ j p.
Proof.
  destruct (btnElement_ this p) as [b|] eqn:Hb.
  - apply btnElement_Some in Hb as (e & He & Hb).
    rewrite (checkToggleState_spec _ _ _ _ He Hb). simpl. split; [done|].
    by apply (erase_set_element _ e).
  - unfold checkToggleState. by rewrite Hb.
Qed.

Lemma updateClasses_frame this p j :
  timers (outcome (updateClasses_ this p)) = timers p
  ∧ erase_classes <$> element_ j (outcome (updateClasses_ this p))
    = erase_classes <$> element_ j p.
Proof.
  destruct (btnElement_ this p) as [b|] eqn:Hb.
  - apply btnElement_Some in Hb as (e & He & Hb).
    rewrite (updateClasses_spec _ _ _ _ He Hb). simpl. split; [done|].
    apply (erase_set_element _ e); [done|].
    unfold resync. by rewrite Hb.
  - by rewrite updateClasses_throws.
Qed.

Lemma erased_button p q j :
  erase_classes <$> element_ j q = erase_classes <$> element_ j p →
  btnElement_ j q = btnElement_ j p.
Proof.
  unfold btnElement_. intros H.
  apply (f_equal (λ o, o ≫= button)) in H.
  by destruct (element_ j q) as [e'|], (element_ j p) as [e|].
Qed.

(** C10. The resynchronisation routines ([checkDisabled],
    [checkToggleState], [updateClasses_]) read the control and write
    nothing but class lists: for every instance [this], every page and
    every position [j], the control found at [j] afterwards is the one
    found before, so its checked and disabled state are unchanged, and
    with the class lists erased the element at [j] is the one it was; no
    timer is queued either. *)
Theorem resync_leaves_controls this p j :
  let unchanged (q : Page) :=
    btnElement_ j q = btnElement_ j p
    ∧ erase_classes <$> element_ j q = erase_classes <$> element_ j p
    ∧ timers q = timers p in
  unchanged (outcome (checkDisabled this p))
  ∧ unchanged (outcome (checkToggleState this p))
  ∧ unchanged (outcome (updateClasses_ this p)).
Proof.
  simpl.
  destruct (checkDisabled_frame this p j) as [Ht1 He1].
  destruct (checkToggleState_frame this p j) as [Ht2 He2].
  destruct (updateClasses_frame this p j) as [Ht3 He3].
  split_and!; try done; by apply erased_button.
Qed.

End resynchronisation.

(** ** Setting [checked]: [check], [uncheck] and the [change] event *)
Section checking.
Import MaterialRadio.
Implicit Types (p : Page) (e : Element) (b : Input) (this j : nat) (v : bool).

Lemma markup_ok_iff p :
  markup_ok p = true ↔
  ∀ j e, element_ j p = Some e → contains JS_RADIO (classList e) = true →
         is_Some (button e).
Proof.
  split; [intros H j e; by apply markup_ok_lookup|].
  intros H. unfold markup_ok. apply forallb_forall. intros e Hin.
  apply list_elem_of_In, list_elem_of_lookup in Hin as [j Hj].
  destruct (contains JS_RADIO (classList e)) eqn:Hm; [simpl|done].
  apply bool_decide_eq_true_2. by apply (H j).
Qed.

Lemma element_native_set_checked a this v p j :
  element_ j (with_document (native_set_checked a this v (document p)) p)
  = (λ e, if bool_decide (j = this) then input_set_checked v e
          else if v then uncheck_if_grouped a e else e) <$> element_ j p.
Proof. unfold element_, native_set_checked. simpl. apply list_lookup_imap. Qed.

Lemma classList_uncheck_if_grouped a e :
  classList (uncheck_if_grouped a e) = classList e.
Proof. unfold uncheck_if_grouped. by repeat case_match. Qed.

Lemma button_uncheck_if_grouped a e :
  is_Some (button (uncheck_if_grouped a e)) ↔ is_Some (button e).
Proof.
  unfold uncheck_if_grouped. destruct (button e) as [b|] eqn:Hb; [|by rewrite Hb].
  destruct (radio_group a b); [|by rewrite Hb].
  unfold input_set_checked. simpl. rewrite Hb. simpl. split; eauto.
Qed.

Lemma markup_ok_native_set_checked a this v p :
  markup_ok p = true →
  markup_ok (with_document (native_set_checked a this v (document p)) p) = true.
Proof.
  rewrite !markup_ok_iff. intros H j e'.
  rewrite element_native_set_checked.
  destruct (element_ j p) as [e|] eqn:He; [simpl|done].
  specialize (H j e He). intros [= <-].
  destruct (bool_decide (j = this)); [|destruct v].
  - unfold input_set_checked. simpl. intros Hm.
    destruct (H Hm) as [bj ->]. simpl. eauto.
  - rewrite classList_uncheck_if_grouped, button_uncheck_if_grouped. done.
  - done.
Qed.

Lemma set_checked_spec this v p b :
  btnElement_ this p = Some b →
  set_checked this v p
  = Normal (with_document (native_set_checked b this v (document p)) p)
  ∧ btnElement_ this (with_document (native_set_checked b this v (document p)) p)
    = Some (with_checked v b).
Proof.
  intros Hb. unfold set_checked. rewrite Hb. split; [done|].
  apply btnElement_Some in Hb as (e & He & Hb).
  unfold btnElement_. rewrite element_native_set_checked, He. simpl.
  rewrite bool_decide_eq_true_2 by done. simpl. by rewrite Hb.
Qed.

Lemma has_class_fmap c (f : Element → Element) q j :
  has_class c (with_document (f <$> document q) q) j
  = match element_ j q with
    | Some e => contains c (classList (f e))
    | None => false
    end.
Proof.
  unfold has_class, element_. simpl. rewrite list_lookup_fmap.
  by destruct (document q !! j).
Qed.

Lemma radio_group_same_name a b :
  radio_group a b = true → attr_name b = attr_name a.
Proof.
  unfold radio_group. destruct (attr_name a), (attr_name b); try done.
  intros H. apply bool_decide_eq_true in H as (_ & -> & _). done.
Qed.

(** A control set to checked, then the propagation step of its instance:
    among the instances of its radio button group, the class is on this
    one alone. *)
Lemma set_checked_onChange this p b :
  markup_ok p = true → btnElement_ this p = Some b →
  ∃ p1 p', set_checked this true p = Normal p1
           ∧ onChange_ this p1 = Normal p'
           ∧ only_checked radio_group this b p p'.
Proof.
  intros Hok Hb.
  destruct (set_checked_spec this true p b Hb) as [Hset Hb1].
  pose proof (markup_ok_native_set_checked b this true p Hok) as Hok1.
  eexists _, _. split; [exact Hset|].
  split; [by rewrite (onChange_spec _ _ _ Hok1 Hb1)|].
  intros j (e & bj & He & Hw & Hbj & Hgrp).
  rewrite has_class_fmap, element_native_set_checked, He. simpl.
  apply andb_true_iff in Hw as [Hm Hp].
  assert (Hname : attr_name bj = attr_name b).
  { destruct Hgrp as [->|Hg]; [|by apply radio_group_same_name].
    rewrite (btnElement_element _ _ _ He) in Hb. congruence. }
  assert (Hstep :
    (if bool_decide (j = this) then input_set_checked true e
     else uncheck_if_grouped b e)
    = input_set_checked (bool_decide (j = this)) e).
  { case_bool_decide as Hj; [done|]. destruct Hgrp as [?|Hg]; [done|].
    unfold uncheck_if_grouped. by rewrite Hbj, Hg. }
  rewrite Hstep. unfold propagate, input_set_checked. simpl.
  rewrite Hm, Hp, Hbj. simpl.
  rewrite bool_decide_eq_true_2 by (by rewrite Hname). simpl.
  unfold resync. simpl. unfold contains.
  apply bool_decide_ext. rewrite synced_checked. simpl.
  by rewrite bool_decide_eq_true.
Qed.

Lemma dispatchEvent_listeners_for type ls this p :
  dispatchEvent type ls this p = dispatchEvent type (listeners_for type ls) this p.
Proof.
  unfold dispatchEvent, listeners_for. revert p.
  induction ls as [|l ls IH]; intros p; [done|]. simpl.
  destruct (decide (l.1 = type)) as [Hl|Hl].
  - rewrite filter_cons_True by done. simpl.
    rewrite bool_decide_eq_true_2 by done. apply IH.
  - rewrite filter_cons_False by done.
    rewrite bool_decide_eq_false_2 by done. apply IH.
Qed.

(** The [change] event at a control wired by [init] runs [onChange_]. *)
Lemma change_event_spec this p b :
  btnElement_ this p = Some b →
  listeners_for "change" (input_listeners b) = [("change", boundChangeHandler_)] →
  change_event this p = outcome (onChange_ this p).
Proof.
  intros Hb Hl. unfold change_event, button_listeners. rewrite Hb.
  by rewrite dispatchEvent_listeners_for, Hl.
Qed.

Lemma user_change_spec this v p b :
  btnElement_ this p = Some b →
  listeners_for "change" (input_listeners b) = [("change", boundChangeHandler_)] →
  user_change this v p = outcome (set_checked this v p >> onChange_ this).
Proof.
  intros Hb Hl. unfold user_change. rewrite Hb.
  destruct (set_checked_spec this v p b Hb) as [-> Hb1]. simpl.
  by apply (change_event_spec _ _ (with_checked v b)).
Qed.

End checking.

(** ** The claims on [check], [uncheck] and [onChange_] *)
Section group_claims.
Import MaterialRadio.
Implicit Types (p : Page) (e : Element) (b : Input) (this j : nat) (v : bool).

Lemma none_carry (f : nat → bool) (l : list nat) :
  (∀ j, j ∈ l → f j = false) →
  filter (λ j, f j = true) l = [] ∧ filter (λ j, f j = false) l = l.
Proof.
  induction l as [|j l IH]; intros H; [done|].
  destruct IH as [IH1 IH2]; [intros k Hk; apply H; by right|].
  assert (Hj : f j = false) by (apply H; by left).
  rewrite filter_cons_False, filter_cons_True by (by rewrite Hj).
  by rewrite IH1, IH2.
Qed.

(** From the pointwise statement to the count: of the [N] members of a
    group one carries the class and [N - 1] do not. *)
Lemma one_carries (f : nat → bool) (this : nat) (group : list nat) :
  NoDup group → this ∈ group →
  (∀ j, j ∈ group → f j = bool_decide (j = this)) →
  filter (λ j, f j = true) group = [this]
  ∧ length (filter (λ j, f j = false) group) = length group - 1.
Proof.
  induction group as [|j l IH]; intros Hnd Hin Hf; [by apply elem_of_nil in Hin|].
  apply NoDup_cons in Hnd as [Hj Hnd].
  pose proof (Hf j ltac:(by left)) as Hfj.
  destruct (decide (j = this)) as [->|Hne].
  - rewrite bool_decide_eq_true_2 in Hfj by done.
    destruct (none_carry f l) as [H1 H2].
    { intros k Hk. rewrite Hf by by right.
      apply bool_decide_eq_false_2. by intros ->. }
    rewrite filter_cons_True, filter_cons_False by (by rewrite Hfj).
    rewrite H1, H2. simpl. split; [done|lia].
  - rewrite bool_decide_eq_false_2 in Hfj by done.
    apply elem_of_cons in Hin as [->|Hin]; [done|].
    destruct IH as [H1 H2]; [done | done | intros k Hk; apply Hf; by right|].
    rewrite filter_cons_False, filter_cons_True by (by rewrite Hfj).
    rewrite H1. simpl. rewrite H2. split; [done|].
    destruct l; [by apply elem_of_nil in Hin | simpl; lia].
Qed.

(** C1, as amended.  In a document that meets the markup contract, let
    the control of the instance [this] be set to checked by [check()]:
    the call returns normally, and among the widget instances whose
    controls are in the radio button group of that control (same
    non-empty name and same form owner), [this] included, exactly [this]
    carries [is-checked]: of any [N] distinct members of that group, [this]
    among them, one carries the class and [N - 1] do not.  A user-driven
    change (the platform sets the control, then fires [change] at it,
    where [init] has put [onChange_]) leaves the same page. *)
Theorem check_only_checked this p b :
  markup_ok p = true → btnElement_ this p = Some b →
  ∃ p', check this p = Normal p'
    ∧ only_checked radio_group this b p p'
    ∧ (∀ group, NoDup group → this ∈ group →
         (∀ j, j ∈ group → group_member radio_group this b p j) →
         filter (λ j, has_class IS_CHECKED p' j = true) group = [this]
         ∧ length (filter (λ j, has_class IS_CHECKED p' j = false) group)
           = length group - 1)
    ∧ (listeners_for "change" (input_listeners b) = [("change", boundChangeHandler_)] →
       user_change this true p = p').
Proof.
  intros Hok Hb.
  destruct (set_checked_onChange this p b Hok Hb) as (p1 & p' & Hset & Hch & Hone).
  exists p'. split; [unfold check; by rewrite Hset|]. split; [done|]. split.
  - intros group Hnd Hin Hmem. apply one_carries; [done..|].
    intros j Hj. by apply Hone, Hmem.
  - intros Hl. rewrite (user_change_spec _ _ _ b Hb Hl), Hset. simpl.
    by rewrite Hch.
Qed.

(** C4.  In a document that meets the markup contract, the propagation
    step [onChange_] of an instance with control [b] returns normally,
    queues nothing, and leaves every element [j] of the document thus: if
    it carries the marker class, its widget property is defined and the
    name attribute of its control equals that of [b], it is as its own
    instance's [updateClasses_] leaves it; in every other case (no marker
    class, not upgraded, or a different name) it is untouched.  The
    originating instance, when it is a widget of the document, is among
    those resynchronised. *)
Theorem onChange_scans_name_group this p b :
  markup_ok p = true → btnElement_ this p = Some b →
  ∃ p', onChange_ this p = Normal p'
    ∧ timers p' = timers p
    ∧ length (document p') = length (document p)
    ∧ (∀ j e, element_ j p = Some e →
         (contains JS_RADIO (classList e) = true →
          prop_MaterialRadio e = true →
          attr_name <$> button e = Some (attr_name b) →
          element_ j p' = element_ j (outcome (updateClasses_ j p)))
         ∧ (contains JS_RADIO (classList e) = false
            ∨ prop_MaterialRadio e = false
            ∨ attr_name <$> button e ≠ Some (attr_name b) →
            element_ j p' = Some e))
    ∧ (∀ e, element_ this p = Some e → is_widget e = true →
         element_ this p' = element_ this (outcome (updateClasses_ this p))).
Proof.
  intros Hok Hb. eexists. split; [by apply onChange_spec|].
  split; [done|]. split; [simpl; by rewrite length_fmap|].
  assert (Hall : ∀ j e, element_ j p = Some e →
    (contains JS_RADIO (classList e) = true →
     prop_MaterialRadio e = true →
     attr_name <$> button e = Some (attr_name b) →
     element_ j (with_document (propagate (attr_name b) <$> document p) p)
     = element_ j (outcome (updateClasses_ j p)))
    ∧ (contains JS_RADIO (classList e) = false
       ∨ prop_MaterialRadio e = false
       ∨ attr_name <$> button e ≠ Some (attr_name b) →
       element_ j (with_document (propagate (attr_name b) <$> document p) p)
       = Some e)).
  { intros j e He.
    assert (Hj : element_ j (with_document (propagate (attr_name b) <$> document p) p)
                 = Some (propagate (attr_name b) e)).
    { unfold element_ in *. simpl. by rewrite list_lookup_fmap, He. }
    rewrite Hj. unfold propagate. split.
    - intros Hm Hp Hn. rewrite Hm, Hp, bool_decide_eq_true_2 by done. simpl.
      destruct (button e) as [bj|] eqn:Hbj; [|done].
      rewrite (updateClasses_spec _ _ _ _ He Hbj). simpl.
      symmetry. by eapply element_set_element_eq.
    - intros [->|[->|Hn]]; [done| |].
      + by rewrite andb_false_r.
      + rewrite (bool_decide_eq_false_2 _ Hn). by rewrite andb_false_r. }
  split; [done|]. intros e He Hw.
  apply andb_true_iff in Hw as [Hm Hp].
  apply (Hall this e He); [done..|].
  rewrite (btnElement_element _ _ _ He) in Hb. by rewrite Hb.
Qed.

(** C5.  [check()] and [uncheck()] (the spec's [setChecked(flag)]) first
    write the flag to the control's [checked] property and then run
    [onChange_], the very handler [init] attaches for [change]; so they
    leave the page, and with it the classes of every instance, exactly as
    a user-driven change to the same control state does. *)
Theorem setChecked_as_user_change this v p b :
  btnElement_ this p = Some b →
  listeners_for "change" (input_listeners b) = [("change", boundChangeHandler_)] →
  ∃ p1, set_checked this v p = Normal p1
    ∧ checked <$> btnElement_ this p1 = Some v
    ∧ setChecked this v p = onChange_ this p1
    ∧ user_change this v p = outcome (onChange_ this p1)
    ∧ outcome (setChecked this v p) = user_change this v p.
Proof.
  intros Hb Hl. destruct (set_checked_spec this v p b Hb) as [Hset Hb1].
  eexists. split; [exact Hset|]. split; [by rewrite Hb1|].
  assert (Hs : setChecked this v p
               = onChange_ this (with_document (native_set_checked b this v (document p)) p)).
  { unfold setChecked, check, uncheck. destruct v; by rewrite Hset. }
  assert (Hu : user_change this v p
               = outcome (onChange_ this (with_document (native_set_checked b this v (document p)) p))).
  { rewrite (user_change_spec _ _ _ b Hb Hl). by rewrite Hset. }
  split; [done|]. split; [done|]. by rewrite Hs, Hu.
Qed.

End group_claims.

Section group_examples.
Import MaterialRadio.

Lemma check_only_checked_witness :
  ∃ p', check 1 tier_page = Normal p'
    ∧ filter (λ j, has_class IS_CHECKED p' j = true) [0; 1; 2] = [1]
    ∧ length (filter (λ j, has_class IS_CHECKED p' j = false) [0; 1; 2]) = 2
    ∧ user_change 1 true tier_page = p'.
Proof.
  edestruct (check_only_checked 1 tier_page) as (p' & Hp' & _ & Hgroup & Huser);
    [vm_compute; reflexivity | vm_compute; reflexivity |].
  exists p'. split; [exact Hp'|].
  destruct (Hgroup [0; 1; 2]) as [H1 H2].
  - by apply (bool_decide_unpack _).
  - by apply (bool_decide_unpack _).
  - intros j Hj. unfold group_member.
    repeat (apply elem_of_cons in Hj as [->|Hj]);
      [ | | | apply elem_of_nil in Hj; destruct Hj];
      eexists _, _;
      (split; [vm_compute; reflexivity|]);
      (split; [vm_compute; reflexivity|]);
      (split; [vm_compute; reflexivity|]);
      first [left; reflexivity | right; vm_compute; reflexivity].
  - split; [exact H1|]. split; [exact H2|].
    apply Huser. vm_compute. reflexivity.
Defined.

(** The spec's scenario: three instances share the name [tier]; the
    second is checked programmatically, then the third. *)
Example tier_scenario :
  has_class IS_CHECKED (script [check 1] tier_page) <$> [0; 1; 2]
  = [false; true; false]
  ∧ has_class IS_CHECKED (script [check 1; check 2] tier_page) <$> [0; 1; 2]
    = [false; false; true].
Proof. split; vm_compute; reflexivity. Qed.

(** The page of the counterexample below, spelled out: both containers are
    upgraded widgets, the controls are named [tier] in forms 1 and 2, the
    first is checked and carries the class. *)
Example two_forms_page_state :
  (classList <$> document two_forms_page)
  = [["mdl-radio"; "mdl-js-radio"; "is-upgraded"; "is-checked"];
     ["mdl-radio"; "mdl-js-radio"; "is-upgraded"]]
  ∧ (prop_MaterialRadio <$> document two_forms_page) = [true; true]
  ∧ ((λ e, (attr_name <$> button e, form_owner <$> button e, checked <$> button e))
       <$> document two_forms_page)
    = [(Some (Some "tier"), Some (Some 1), Some true);
       (Some (Some "tier"), Some (Some 2), Some false)].
Proof. split_and!; vm_compute; reflexivity. Qed.

(** C1 as stated fails: two instances whose controls share the name
    attribute [tier] but sit in different forms are not one radio button
    group; with the first checked, [check()] on the second leaves both
    carrying [is-checked]. *)
Lemma check_same_name_two_forms :
  match btnElement_ 0 two_forms_page, btnElement_ 1 two_forms_page with
  | Some a, Some b => same_name a b
  | _, _ => false
  end = true
  ∧ has_class IS_CHECKED (outcome (check 1 two_forms_page)) <$> [0; 1] = [true; true]
  ∧ ¬ (∀ this p b, markup_ok p = true → btnElement_ this p = Some b →
         ∃ p', check this p = Normal p' ∧ only_checked same_name this b p p').
Proof.
  split; [vm_compute; reflexivity|]. split; [vm_compute; reflexivity|].
  intros H.
  destruct (btnElement_ 1 two_forms_page) as [b|] eqn:Hb;
    [|vm_compute in Hb; discriminate].
  destruct (H 1 two_forms_page b) as (p' & Hp' & Hone);
    [vm_compute; reflexivity | exact Hb |].
  vm_compute in Hb. injection Hb as <-.
  vm_compute in Hp'. injection Hp' as <-.
  assert (Hfalse : has_class IS_CHECKED
            (outcome (check 1 two_forms_page)) 0 = bool_decide (0 = 1)).
  { vm_compute (outcome _). apply Hone. eexists _, _.
    split_and!; [vm_compute; reflexivity | vm_compute; reflexivity
                | vm_compute; reflexivity | right; vm_compute; reflexivity]. }
  vm_compute in Hfalse. discriminate.
Qed.

Lemma onChange_scans_name_group_witness :
  markup_ok stale_page = true
  ∧ has_class IS_CHECKED stale_page <$> [0; 1; 2] = [true; false; false]
  ∧ ((λ j, checked <$> btnElement_ j stale_page) <$> [0; 1; 2])
    = [Some false; Some true; Some true]
  ∧ ∃ p', onChange_ 1 stale_page = Normal p'
      ∧ has_class IS_CHECKED p' <$> [0; 1; 2] = [false; true; false]
      ∧ element_ 0 p' = element_ 0 (outcome (updateClasses_ 0 stale_page))
      ∧ element_ 1 p' = element_ 1 (outcome (updateClasses_ 1 stale_page))
      ∧ element_ 2 p' = element_ 2 stale_page.
Proof.
  split; [vm_compute; reflexivity|]. split; [vm_compute; reflexivity|].
  split; [vm_compute; reflexivity|].
  edestruct (onChange_scans_name_group 1 stale_page) as (p' & Hp' & _ & _ & Hall & _);
    [vm_compute; reflexivity | vm_compute; reflexivity |].
  edestruct (Hall 0) as [H0 _]; [vm_compute; reflexivity|].
  edestruct (Hall 1) as [H1 _]; [vm_compute; reflexivity|].
  edestruct (Hall 2) as [_ H2]; [vm_compute; reflexivity|].
  exists p'. split; [exact Hp'|]. split.
  { pose proof Hp' as Hv. vm_compute in Hv. injection Hv as <-.
    vm_compute. reflexivity. }
  split; [apply H0; vm_compute; reflexivity|].
  split; [apply H1; vm_compute; reflexivity|].
  rewrite H2; [vm_compute; reflexivity|].
  right. right. vm_compute. discriminate.
Defined.

(** C4 as stated fails where the markup contract is broken.  On
    [broken_page] the user selects the first radio button: the platform
    unchecks the third, of the same group, and the [change] event runs
    [onChange_] of the first.  The scan throws at the marker element without
    control in between, so the third, an upgraded widget whose control has
    the name of the originating control, is not resynchronised: it keeps
    the [is-checked] its own [updateClasses_] would remove. *)
Lemma onChange_misses_same_name :
  markup_ok broken_page_selected = false
  ∧ returns (onChange_ 0 broken_page_selected) = false
  ∧ (is_widget <$> element_ 2 broken_page_selected) = Some true
  ∧ (attr_name <$> btnElement_ 2 broken_page_selected)
    = (attr_name <$> btnElement_ 0 broken_page_selected)
  ∧ (checked <$> btnElement_ 2 broken_page_selected) = Some false
  ∧ has_class IS_CHECKED (outcome (onChange_ 0 broken_page_selected)) 2 = true
  ∧ has_class IS_CHECKED (outcome (updateClasses_ 2 broken_page_selected)) 2 = false
  ∧ has_class IS_CHECKED (user_change 0 true broken_page) 2 = true
  ∧ ¬ (∀ this p b, btnElement_ this p = Some b →
         ∀ j e, element_ j p = Some e →
           contains JS_RADIO (classList e) = true →
           prop_MaterialRadio e = true →
           attr_name <$> button e = Some (attr_name b) →
           element_ j (outcome (onChange_ this p))
           = element_ j (outcome (updateClasses_ j p))).
Proof.
  split_and!; [vm_compute; reflexivity..|].
  intros H.
  assert (Heq : element_ 2 (outcome (onChange_ 0 broken_page_selected))
                = element_ 2 (outcome (updateClasses_ 2 broken_page_selected))).
  { eapply (H 0 broken_page_selected); vm_compute; reflexivity. }
  revert Heq. vm_compute. discriminate.
Qed.

Lemma setChecked_as_user_change_witness :
  outcome (setChecked 0 false tier_page) = user_change 0 false tier_page
  ∧ outcome (setChecked 2 true tier_page) = user_change 2 true tier_page.
Proof.
  split.
  - edestruct (setChecked_as_user_change 0 false tier_page) as (p1 & _ & _ & _ & _ & H);
      [vm_compute; reflexivity | vm_compute; reflexivity | exact H].
  - edestruct (setChecked_as_user_change 2 true tier_page) as (p1 & _ & _ & _ & _ & H);
      [vm_compute; reflexivity | vm_compute; reflexivity | exact H].
Defined.

End group_examples.

(** ** [disable] and [enable] *)
Section disabling.
Import MaterialRadio.
Implicit Types (p : Page) (e : Element) (b : Input) (this j : nat) (v : bool).

Lemma set_disabled_spec this v p e b :
  element_ this p = Some e → button e = Some b →
  set_disabled this v p
  = Normal (set_element this (with_button (Some (with_disabled v b)) e) p).
Proof.
  intros He Hb. unfold set_disabled.
  by rewrite (btnElement_element _ _ _ He), He, Hb.
Qed.

(** What [disable()] and [enable()] do, whatever the classes were: the
    control's flag is written and both classes are recomputed. *)
Lemma setDisabled_spec this v p e b :
  element_ this p = Some e → button e = Some b →
  setDisabled this v p
  = Normal (set_element this
              (with_classList (synced (with_disabled v b) (classList e))
                 (with_button (Some (with_disabled v b)) e)) p).
Proof.
  intros He Hb.
  assert (H : set_disabled this v p >> updateClasses_ this
              = Normal (set_element this
                  (with_classList (synced (with_disabled v b) (classList e))
                     (with_button (Some (with_disabled v b)) e)) p)).
  { rewrite (set_disabled_spec _ _ _ _ _ He Hb). simpl.
    erewrite updateClasses_spec;
      [| by eapply element_set_element_eq | reflexivity].
    by rewrite set_element_twice. }
  unfold setDisabled. by destruct v.
Qed.

Lemma checked_not_disabled : IS_CHECKED ≠ IS_DISABLED.
Proof. done. Qed.

(** C6, as amended.  For an instance whose [is-checked] class mirrors its
    control's checked state, [disable()] returns normally and changes the
    class list of the container by adding [is-disabled] and nothing else,
    so [is-checked] is as before; [enable()] after it removes
    [is-disabled] and nothing else, [is-checked] again as before; no
    other element of the document is touched. *)
Theorem disable_enable_classes this p e b :
  element_ this p = Some e → button e = Some b → mirrors_checked e = true →
  ∃ p1 p2 e1 e2,
    disable this p = Normal p1 ∧ element_ this p1 = Some e1
    ∧ classList e1 = add IS_DISABLED (classList e)
    ∧ contains IS_CHECKED (classList e1) = contains IS_CHECKED (classList e)
    ∧ enable this p1 = Normal p2 ∧ element_ this p2 = Some e2
    ∧ classList e2 = remove IS_DISABLED (classList e1)
    ∧ contains IS_CHECKED (classList e2) = contains IS_CHECKED (classList e)
    ∧ (∀ j, j ≠ this → element_ j p1 = element_ j p ∧ element_ j p2 = element_ j p).
Proof.
  intros He Hb Hm. unfold mirrors_checked in Hm. rewrite Hb in Hm.
  apply bool_decide_eq_true in Hm.
  assert (Hin : IS_CHECKED ∈ classList e ↔ checked b = true).
  { by rewrite <- contains_true, Hm. }
  pose proof (setDisabled_spec this true p e b He Hb) as Hdis.
  unfold setDisabled in Hdis. simpl in Hdis.
  set (e1 := with_classList (synced (with_disabled true b) (classList e))
               (with_button (Some (with_disabled true b)) e)) in *.
  assert (He1 : element_ this (set_element this e1 p) = Some e1)
    by by eapply element_set_element_eq.
  pose proof (setDisabled_spec this false _ e1 (with_disabled true b) He1 eq_refl)
    as Hen.
  unfold setDisabled in Hen. simpl in Hen. rewrite set_element_twice in Hen.
  set (e2 := with_classList _ _) in Hen.
  assert (Hc1 : classList e1 = add IS_DISABLED (classList e)).
  { change (classList e1)
      with (toggle IS_CHECKED (checked b) (add IS_DISABLED (classList e))).
    apply toggle_fixed. rewrite elem_of_add. pose proof checked_not_disabled. tauto. }
  assert (Hc2 : classList e2 = remove IS_DISABLED (classList e1)).
  { change (classList e2)
      with (toggle IS_CHECKED (checked b) (remove IS_DISABLED (classList e1))).
    apply toggle_fixed. rewrite elem_of_remove, Hc1, elem_of_add.
    pose proof checked_not_disabled. tauto. }
  exists (set_element this e1 p), (set_element this e2 p), e1, e2.
  split_and!; try done.
  - unfold contains. apply bool_decide_ext.
    rewrite Hc1, elem_of_add. pose proof checked_not_disabled. tauto.
  - by eapply element_set_element_eq.
  - unfold contains. apply bool_decide_ext.
    rewrite Hc2, elem_of_remove, Hc1, elem_of_add.
    pose proof checked_not_disabled. tauto.
  - intros j Hj. by rewrite !element_set_element_ne.
Qed.

Lemma disable_enable_classes_witness :
  ∃ e b, element_ 0 tier_page = Some e ∧ button e = Some b
    ∧ mirrors_checked e = true
    ∧ ∃ p1 e1, disable 0 tier_page = Normal p1 ∧ element_ 0 p1 = Some e1
        ∧ classList e1 = add IS_DISABLED (classList e).
Proof.
  eexists _, _. split; [vm_compute; reflexivity|].
  split; [vm_compute; reflexivity|]. split; [vm_compute; reflexivity|].
  edestruct (disable_enable_classes 0 tier_page)
    as (p1 & _ & e1 & _ & H1 & H2 & H3 & _);
    [vm_compute; reflexivity | vm_compute; reflexivity | vm_compute; reflexivity |].
  exists p1, e1. split_and!; [exact H1 | exact H2 | exact H3].
Defined.

(** The page of the counterexample below, spelled out: the first container
    is an upgraded widget that still carries [is-checked] while its control
    is no longer checked; the second, not upgraded, holds the checked
    control. *)
Example late_sibling_page_state :
  (classList <$> document late_sibling_page)
  = [["mdl-radio"; "mdl-js-radio"; "is-checked"; "is-upgraded"];
     ["mdl-radio"; "mdl-js-radio"]]
  ∧ (prop_MaterialRadio <$> document late_sibling_page) = [true; false]
  ∧ ((λ e, (attr_name <$> button e, checked <$> button e, disabled <$> button e))
       <$> document late_sibling_page)
    = [(Some (Some "tier"), Some false, Some false);
       (Some (Some "tier"), Some true, Some false)].
Proof. split_and!; vm_compute; reflexivity. Qed.

(** C6 as stated fails where the class is stale.  On [late_sibling_page]
    the first radio button still carries [is-checked] although the user
    has selected its not yet upgraded sibling; [disable()] on it removes
    [is-checked] along with adding [is-disabled]. *)
Lemma disable_drops_stale_checked :
  has_class IS_CHECKED late_sibling_page 0 = true
  ∧ returns (disable 0 late_sibling_page) = true
  ∧ has_class IS_DISABLED (outcome (disable 0 late_sibling_page)) 0 = true
  ∧ has_class IS_CHECKED (outcome (disable 0 late_sibling_page)) 0 = false
  ∧ ¬ (∀ this p e b, element_ this p = Some e → button e = Some b →
         ∃ p1 e1, disable this p = Normal p1 ∧ element_ this p1 = Some e1
                  ∧ classList e1 = add IS_DISABLED (classList e)).
Proof.
  split_and!; [vm_compute; reflexivity..|].
  intros H.
  edestruct (H 0 late_sibling_page) as (p1 & e1 & Hp1 & He1 & Hc);
    [vm_compute; reflexivity | vm_compute; reflexivity |].
  vm_compute in Hp1. injection Hp1 as <-.
  vm_compute in He1. injection He1 as <-.
  vm_compute in Hc. discriminate.
Qed.

End disabling.

(** ** [init] *)
Section initialisation.
Import MaterialRadio.
Implicit Types (p : Page) (e : Element) (b : Input) (this j : nat) (s : Span).

Lemma appendChild_at this s p e e1 :
  element_ this p = Some e →
  appendChild this s (set_element this e1 p)
  = Normal (set_element this (with_appended (appended e1 ++ [s]) e1) p).
Proof.
  intros He. unfold appendChild. rewrite (element_set_element_eq _ e) by done.
  by rewrite set_element_twice.
Qed.

Lemma classList_add_at this c p e e1 :
  element_ this p = Some e →
  classList_add this c (set_element this e1 p)
  = Normal (set_element this (with_classList (add c (classList e1)) e1) p).
Proof.
  intros He. unfold classList_add. rewrite (element_set_element_eq _ e) by done.
  by rewrite set_element_twice.
Qed.

Lemma addEventListener_at this type h p e e1 :
  element_ this p = Some e →
  addEventListener this type h (set_element this e1 p)
  = Normal (set_element this (with_listeners (listeners e1 ++ [(type, h)]) e1) p).
Proof.
  intros He. unfold addEventListener.
  rewrite (element_set_element_eq _ e) by done. by rewrite set_element_twice.
Qed.

Lemma btn_addEventListener_at this type h p e e1 b1 :
  element_ this p = Some e → button e1 = Some b1 →
  btn_addEventListener this type h (set_element this e1 p)
  = Normal (set_element this
              (with_button
                 (Some (with_input_listeners (input_listeners b1 ++ [(type, h)]) b1))
                 e1) p).
Proof.
  intros He Hb. unfold btn_addEventListener, btnElement_.
  rewrite (element_set_element_eq _ e) by done. simpl. rewrite Hb.
  by rewrite set_element_twice.
Qed.

Lemma btn_addEventListener_throws this type h p e :
  element_ this p = Some e → button e = None →
  btn_addEventListener this type h p = Throw p.
Proof.
  intros He Hb. unfold btn_addEventListener, btnElement_. rewrite He. simpl.
  by rewrite Hb.
Qed.

Lemma updateClasses_at this p e e1 b1 :
  element_ this p = Some e → button e1 = Some b1 →
  updateClasses_ this (set_element this e1 p)
  = Normal (set_element this (with_classList (synced b1 (classList e1)) e1) p).
Proof.
  intros He Hb.
  rewrite (updateClasses_spec _ _ e1 b1);
    [| by eapply element_set_element_eq | done].
  rewrite set_element_twice. unfold resync. by rewrite Hb.
Qed.

(** The element [init] leaves in place of a container [e] with control
    [b]. *)
Lemma init_present this p e b :
  element_ this p = Some e → button e = Some b →
  init this p
  = Normal (set_element this
      {| classList :=
           add IS_UPGRADED
             (synced b (if contains RIPPLE_EFFECT (classList e)
                        then add RIPPLE_IGNORE_EVENTS (classList e)
                        else classList e));
         appended :=
           appended e ++ [outerCircle; innerCircle]
           ++ (if contains RIPPLE_EFFECT (classList e) then [rippleContainer] else []);
         button :=
           Some (with_input_listeners
                   (input_listeners b
                    ++ [("change", boundChangeHandler_);
                        ("focus", boundFocusHandler_);
                        ("blur", boundBlurHandler_)]) b);
         listeners := listeners e ++ [("mouseup", boundMouseUpHandler_)];
         prop_MaterialRadio := prop_MaterialRadio e |} p).
Proof.
  intros He Hb. unfold init. rewrite He.
  rewrite <- (set_element_same this e p He) at 1.
  rewrite (appendChild_at _ _ p e _ He). step.
  rewrite (appendChild_at _ _ p e _ He). step.
  erewrite has_class_element by by eapply element_set_element_eq.
  step. destruct (contains RIPPLE_EFFECT (classList e)).
  - rewrite (classList_add_at _ _ p e _ He). step.
    rewrite (appendChild_at _ _ p e _ He). step.
    erewrite (btn_addEventListener_at _ _ _ p e); [|exact He|exact Hb]. step.
    erewrite (btn_addEventListener_at _ _ _ p e); [|exact He|reflexivity]. step.
    erewrite (btn_addEventListener_at _ _ _ p e); [|exact He|reflexivity]. step.
    rewrite (addEventListener_at _ _ _ p e _ He). step.
    erewrite (updateClasses_at _ p e); [|exact He|reflexivity]. step.
    rewrite (classList_add_at _ _ p e _ He). step.
    by rewrite <- !(assoc_L (++)).
  - step.
    erewrite (btn_addEventListener_at _ _ _ p e); [|exact He|exact Hb]. step.
    erewrite (btn_addEventListener_at _ _ _ p e); [|exact He|reflexivity]. step.
    erewrite (btn_addEventListener_at _ _ _ p e); [|exact He|reflexivity]. step.
    rewrite (addEventListener_at _ _ _ p e _ He). step.
    erewrite (updateClasses_at _ p e); [|exact He|reflexivity]. step.
    rewrite (classList_add_at _ _ p e _ He). step.
    by rewrite <- !(assoc_L (++)).
Qed.

(** Summary of [init_present] for the event wiring. *)
Lemma init_wired this p e b :
  element_ this p = Some e → button e = Some b →
  ∃ p1 e' b',
    init this p = Normal p1
    ∧ element_ this p1 = Some e' ∧ button e' = Some b'
    ∧ input_listeners b'
      = (input_listeners b ++ [("change", boundChangeHandler_);
                               ("focus", boundFocusHandler_);
                               ("blur", boundBlurHandler_)])%list
    ∧ listeners e' = (listeners e ++ [("mouseup", boundMouseUpHandler_)])%list
    ∧ contains IS_FOCUSED (classList e') = contains IS_FOCUSED (classList e)
    ∧ (∀ j, j ≠ this → element_ j p1 = element_ j p).
Proof.
  intros He Hb. eexists _, _, _. split; [by apply init_present|].
  split; [by eapply element_set_element_eq|]. split; [reflexivity|].
  split; [done|]. split; [done|].
  split; [|intros j Hj; by apply element_set_element_ne].
  simpl. unfold contains. apply bool_decide_ext.
  rewrite elem_of_add, synced_other by done.
  destruct (bool_decide (RIPPLE_EFFECT ∈ classList e)).
  - rewrite elem_of_add. split; [|tauto].
    intros [Heq|[Heq|H]]; [discriminate Heq | discriminate Heq | exact H].
  - split; [|tauto]. intros [Heq|H]; [discriminate Heq | exact H].
Qed.

End initialisation.

Section initialisation_claims.
Import MaterialRadio.
Implicit Types (p : Page) (e : Element) (b : Input) (this j : nat).

(** Without a control in the container [init] throws, at the first
    [addEventListener] on it, after the circles have been appended. *)
Lemma init_without_control this p e :
  element_ this p = Some e → button e = None → returns (init this p) = false.
Proof.
  intros He Hb. unfold init. rewrite He.
  rewrite <- (set_element_same this e p He) at 1.
  rewrite (appendChild_at _ _ p e _ He). step.
  rewrite (appendChild_at _ _ p e _ He). step.
  erewrite has_class_element by by eapply element_set_element_eq.
  step. destruct (contains RIPPLE_EFFECT (classList e)).
  - rewrite (classList_add_at _ _ p e _ He). step.
    rewrite (appendChild_at _ _ p e _ He). step.
    erewrite btn_addEventListener_throws;
      [done | by eapply element_set_element_eq | done].
  - step.
    erewrite btn_addEventListener_throws;
      [done | by eapply element_set_element_eq | done].
Qed.

(** C7.  [init] on an absent container is a no-op: it returns normally
    and leaves the page as it was (no node changed, no listener
    attached).  On a container [e] whose control is [b] it returns
    normally and changes that element alone: the control stays in place
    and gets the [change], [focus] and [blur] listeners, the container
    the [mouseup] listener; the outer and inner circle are appended,
    followed by the ripple container exactly when [e] carries the ripple
    marker class; the classes are synchronised with the control
    ([is-checked] and [is-disabled] present exactly when the control is
    checked, disabled) and [is-upgraded] is added. *)
Theorem init_absent_or_present this p :
  (element_ this p = None → init this p = Normal p)
  ∧ (∀ e b, element_ this p = Some e → button e = Some b →
       ∃ p' e' b',
         init this p = Normal p'
         ∧ timers p' = timers p
         ∧ (∀ j, j ≠ this → element_ j p' = element_ j p)
         ∧ element_ this p' = Some e' ∧ button e' = Some b'
         ∧ with_input_listeners [] b' = with_input_listeners [] b
         ∧ input_listeners b'
           = (input_listeners b ++ [("change", boundChangeHandler_);
                                    ("focus", boundFocusHandler_);
                                    ("blur", boundBlurHandler_)])%list
         ∧ listeners e' = (listeners e ++ [("mouseup", boundMouseUpHandler_)])%list
         ∧ appended e'
           = (appended e ++ [outerCircle; innerCircle]
              ++ (if contains RIPPLE_EFFECT (classList e)
                  then [rippleContainer] else []))%list
         ∧ classList e'
           = add IS_UPGRADED
               (synced b (if contains RIPPLE_EFFECT (classList e)
                          then add RIPPLE_IGNORE_EVENTS (classList e)
                          else classList e))
         ∧ IS_UPGRADED ∈ classList e'
         ∧ (IS_CHECKED ∈ classList e' ↔ checked b = true)
         ∧ (IS_DISABLED ∈ classList e' ↔ disabled b = true)
         ∧ prop_MaterialRadio e' = prop_MaterialRadio e).
Proof.
  split.
  - intros He. unfold init. by rewrite He.
  - intros e b He Hb. eexists _, _, _.
    split; [by apply init_present|]. split; [done|].
    split; [intros j Hj; by apply element_set_element_ne|].
    split; [by eapply element_set_element_eq|].
    split; [reflexivity|]. split; [done|]. split; [done|]. split; [done|].
    split; [done|]. split; [done|]. simpl.
    split; [apply elem_of_add; by left|].
    split.
    + rewrite elem_of_add, synced_checked.
      split; [intros [Heq|Hc]; [discriminate Heq|exact Hc] | by right].
    + split; [|done]. rewrite elem_of_add, synced_disabled.
      split; [intros [Heq|Hd]; [discriminate Heq|exact Hd] | by right].
Qed.

Lemma init_absent_or_present_witness :
  init 7 tier_markup = Normal tier_markup
  ∧ ∃ p', init 2 tier_markup = Normal p' ∧ has_class IS_UPGRADED p' 2 = true.
Proof.
  split.
  - apply (proj1 (init_absent_or_present 7 tier_markup)). reflexivity.
  - edestruct (proj2 (init_absent_or_present 2 tier_markup))
      as (p' & e' & b' & Hp' & _ & _ & He' & _ & _ & _ & _ & _ & _ & Hup & _);
      [vm_compute; reflexivity | vm_compute; reflexivity |].
    exists p'. split; [exact Hp'|].
    unfold has_class. change (document p' !! 2) with (element_ 2 p').
    rewrite He'. by apply contains_true.
Defined.

End initialisation_claims.

(** ** What the propagation step cannot touch *)
Section frames.
Import MaterialRadio.
Implicit Types (p q : Page) (e : Element) (b : Input) (this j : nat) (c : string).

Lemma resync_related_refl p : resync_related p p.
Proof. by split. Qed.

Lemma resync_related_trans p q r :
  resync_related p q → resync_related q r → resync_related p r.
Proof.
  intros [Ht1 H1] [Ht2 H2]. split; [congruence|]. intros j.
  destruct (H1 j) as [He1 Hc1], (H2 j) as [He2 Hc2].
  split; [congruence|]. intros c ? ?. rewrite Hc2, Hc1; done.
Qed.

Lemma contains_resync c e :
  c ≠ IS_CHECKED → c ≠ IS_DISABLED →
  contains c (classList (resync e)) = contains c (classList e).
Proof.
  intros H1 H2. unfold resync. destruct (button e) as [b|]; [|done]. simpl.
  unfold contains. apply bool_decide_ext. by apply synced_other.
Qed.

Lemma updateClasses_related this p :
  resync_related p (outcome (updateClasses_ this p)).
Proof.
  destruct (btnElement_ this p) as [b|] eqn:Hb.
  - apply btnElement_Some in Hb as (e & He & Hb).
    rewrite (updateClasses_spec _ _ _ _ He Hb). simpl.
    split; [done|]. intros j. split.
    + apply (erase_set_element _ e); [done|]. unfold resync. by rewrite Hb.
    + intros c H1 H2. destruct (decide (this = j)) as [<-|Hne].
      * rewrite (has_class_element _ _ _ (resync e))
          by by eapply element_set_element_eq.
        rewrite (has_class_element _ _ _ e) by done. by apply contains_resync.
      * unfold has_class. unfold set_element, with_document. simpl.
        by rewrite list_lookup_insert_ne.
  - rewrite updateClasses_throws by done. apply resync_related_refl.
Qed.

Lemma onChange_loop_related this radios : ∀ p,
  resync_related p (outcome (onChange_loop this radios p)).
Proof.
  induction radios as [|r rest IH]; intros p; [apply resync_related_refl|].
  simpl. destruct (btnElement_ r p); [|apply resync_related_refl].
  destruct (btnElement_ this p); [|apply resync_related_refl].
  case_bool_decide; [|apply IH].
  case_bool_decide; [|apply IH].
  pose proof (updateClasses_related r p) as Hr.
  destruct (updateClasses_ r p) as [q|q]; simpl in *; [|done].
  eapply resync_related_trans; [exact Hr | apply IH].
Qed.

Lemma onChange_related this p : resync_related p (outcome (onChange_ this p)).
Proof. apply onChange_loop_related. Qed.

Lemma has_class_set_focused c this v p j :
  has_class c (set_focused this v p) j = has_class c p j.
Proof.
  unfold set_focused. destruct (element_ this p) as [e|] eqn:He; [|done].
  destruct (decide (this = j)) as [<-|Hne].
  - rewrite (has_class_element _ _ _ (with_button (with_focused v <$> button e) e))
      by by eapply element_set_element_eq.
    by rewrite (has_class_element _ _ _ e).
  - unfold has_class, set_element, with_document. simpl.
    by rewrite list_lookup_insert_ne.
Qed.

Lemma btnElement_set_focused this v p b :
  btnElement_ this p = Some b →
  btnElement_ this (set_focused this v p) = Some (with_focused v b).
Proof.
  intros Hb. apply btnElement_Some in Hb as (e & He & Hb).
  unfold set_focused. rewrite He. unfold btnElement_.
  rewrite (element_set_element_eq _ e) by done. simpl. by rewrite Hb.
Qed.

End frames.

(** ** Focus and blur *)
Section focus.
Import MaterialRadio.
Implicit Types (p q : Page) (e : Element) (b : Input) (this j : nat) (c : string).

Lemma focus_event_spec this p b :
  btnElement_ this p = Some b →
  listeners_for "focus" (input_listeners b) = [("focus", boundFocusHandler_)] →
  focus_event this p = outcome (onChange_ this (set_focused this true p)).
Proof.
  intros Hb Hl. unfold focus_event, button_listeners. rewrite Hb.
  by rewrite dispatchEvent_listeners_for, Hl.
Qed.

(** A focus event at a wired control changes no [is-focused] class. *)
Lemma focus_event_class this p b j :
  btnElement_ this p = Some b →
  listeners_for "focus" (input_listeners b) = [("focus", boundFocusHandler_)] →
  has_class IS_FOCUSED (focus_event this p) j = has_class IS_FOCUSED p j.
Proof.
  intros Hb Hl. rewrite (focus_event_spec _ _ _ Hb Hl).
  destruct (onChange_related this (set_focused this true p)) as [_ H].
  destruct (H j) as [_ Hc]. rewrite Hc by done. apply has_class_set_focused.
Qed.

Lemma focus_event_button this p b :
  btnElement_ this p = Some b →
  listeners_for "focus" (input_listeners b) = [("focus", boundFocusHandler_)] →
  btnElement_ this (focus_event this p) = Some (with_focused true b).
Proof.
  intros Hb Hl. rewrite (focus_event_spec _ _ _ Hb Hl).
  destruct (onChange_related this (set_focused this true p)) as [_ H].
  destruct (H this) as [He _]. rewrite (erased_button _ _ _ He).
  by apply btnElement_set_focused.
Qed.

(** A blur event at a focused, wired control removes [is-focused]. *)
Lemma blur_event_class this p b :
  btnElement_ this p = Some b → focused b = true →
  listeners_for "blur" (input_listeners b) = [("blur", boundBlurHandler_)] →
  blur_event this p = outcome (onBlur_ this (set_focused this false p))
  ∧ has_class IS_FOCUSED (blur_event this p) this = false.
Proof.
  intros Hb Hf Hl.
  assert (Hbl : blur_event this p = outcome (onBlur_ this (set_focused this false p))).
  { unfold blur_event, btnElement_blur. rewrite Hb, Hf. simpl.
    by rewrite dispatchEvent_listeners_for, Hl. }
  split; [done|]. rewrite Hbl.
  pose proof (btnElement_set_focused this false p b Hb) as Hb'.
  apply btnElement_Some in Hb' as (e' & He' & _).
  unfold onBlur_. rewrite (classList_remove_spec _ _ _ _ He'). simpl.
  rewrite (has_class_element _ _ _ (with_classList (remove IS_FOCUSED (classList e')) e'))
    by by eapply element_set_element_eq.
  simpl. apply contains_false. rewrite elem_of_remove. tauto.
Qed.

(** C2 (the code departs from it).  On a container [e] with a fresh
    control [b], [init] returns normally, and on the page it leaves a
    focus event at the control runs [onChange_], which is what [init]
    binds as the focus handler, not [onFocus_]: no element gains or loses
    [is-focused], so a container that did not carry the class before
    still does not.  The blur half of the claim holds: a blur event after
    it leaves the container without [is-focused]. *)
Theorem focus_event_runs_onChange this p e b :
  element_ this p = Some e → button e = Some b → input_listeners b = [] →
  ∃ p1, init this p = Normal p1
    ∧ focus_event this p1 = outcome (onChange_ this (set_focused this true p1))
    ∧ (∀ j, has_class IS_FOCUSED (focus_event this p1) j = has_class IS_FOCUSED p j)
    ∧ has_class IS_FOCUSED (blur_event this (focus_event this p1)) this = false.
Proof.
  intros He Hb Hls.
  destruct (init_wired this p e b He Hb)
    as (p1 & e' & b' & Hinit & He' & Hb' & Hl' & _ & Hcl & Hoth).
  rewrite Hls in Hl'. simpl in Hl'.
  assert (Hb1 : btnElement_ this p1 = Some b')
    by (apply btnElement_Some; eauto).
  assert (Hfo : listeners_for "focus" (input_listeners b')
                = [("focus", boundFocusHandler_)]) by by rewrite Hl'.
  assert (Hbl : listeners_for "blur" (input_listeners b')
                = [("blur", boundBlurHandler_)]) by by rewrite Hl'.
  exists p1. split; [done|]. split; [by apply (focus_event_spec _ _ b')|].
  split.
  - intros j. rewrite (focus_event_class _ _ b') by done.
    destruct (decide (j = this)) as [->|Hj].
    + rewrite (has_class_element _ _ _ e'), (has_class_element _ _ _ e) by done.
      exact Hcl.
    + unfold has_class. change (document p1 !! j) with (element_ j p1).
      rewrite Hoth by done. done.
  - eapply blur_event_class; [by eapply focus_event_button | done | done].
Qed.

End focus.

Section focus_examples.
Import MaterialRadio.

Lemma focus_event_runs_onChange_witness :
  ∃ p1, init 1 tier_markup = Normal p1
    ∧ has_class IS_FOCUSED (focus_event 1 p1) 1 = false.
Proof.
  edestruct (focus_event_runs_onChange 1 tier_markup) as (p1 & Hp1 & _ & Hc & _);
    [vm_compute; reflexivity | vm_compute; reflexivity | vm_compute; reflexivity |].
  exists p1. split; [exact Hp1|]. rewrite Hc. vm_compute. reflexivity.
Defined.

(** On the upgraded sample page: the second control receives focus and
    its container's classes stay as they were, without [is-focused]. *)
Example focus_on_tier_page :
  (classList <$> element_ 1 tier_page) = Some ["mdl-radio"; "mdl-js-radio"; "is-upgraded"]
  ∧ (classList <$> element_ 1 (focus_event 1 tier_page))
    = Some ["mdl-radio"; "mdl-js-radio"; "is-upgraded"]
  ∧ (focused <$> btnElement_ 1 (focus_event 1 tier_page)) = Some true.
Proof. split_and!; vm_compute; reflexivity. Qed.

End focus_examples.

(** ** Pointer release and the deferred blur *)
Section deferred_blur.
Import MaterialRadio.
Implicit Types (p q : Page) (e : Element) (b : Input) (this j : nat).

Lemma timers_andThen p (c : Completion) (f : Page → Completion) :
  timers (outcome c) = timers p →
  (∀ q, timers (outcome (f q)) = timers q) →
  timers (outcome (c >> f)) = timers p.
Proof. intros Hc Hf. destruct c as [q|q]; simpl in *; [|done]. by rewrite Hf. Qed.

Lemma timers_classList_add this c p :
  timers (outcome (classList_add this c p)) = timers p.
Proof. unfold classList_add. by destruct (element_ this p). Qed.

Lemma timers_classList_remove this c p :
  timers (outcome (classList_remove this c p)) = timers p.
Proof. unfold classList_remove. by destruct (element_ this p). Qed.

Lemma timers_appendChild this s p :
  timers (outcome (appendChild this s p)) = timers p.
Proof. unfold appendChild. by destruct (element_ this p). Qed.

Lemma timers_addEventListener this type h p :
  timers (outcome (addEventListener this type h p)) = timers p.
Proof. unfold addEventListener. by destruct (element_ this p). Qed.

Lemma timers_btn_addEventListener this type h p :
  timers (outcome (btn_addEventListener this type h p)) = timers p.
Proof.
  unfold btn_addEventListener.
  by destruct (element_ this p), (btnElement_ this p).
Qed.

Lemma timers_set_disabled this v p :
  timers (outcome (set_disabled this v p)) = timers p.
Proof.
  unfold set_disabled. by destruct (element_ this p), (btnElement_ this p).
Qed.

Lemma timers_set_checked this v p :
  timers (outcome (set_checked this v p)) = timers p.
Proof. unfold set_checked. by destruct (btnElement_ this p). Qed.

Lemma timers_checkDisabled this p :
  timers (outcome (checkDisabled this p)) = timers p.
Proof. apply (checkDisabled_frame this p 0). Qed.

Lemma timers_checkToggleState this p :
  timers (outcome (checkToggleState this p)) = timers p.
Proof. apply (checkToggleState_frame this p 0). Qed.

Lemma timers_updateClasses this p :
  timers (outcome (updateClasses_ this p)) = timers p.
Proof. apply (updateClasses_frame this p 0). Qed.

Lemma timers_onChange this p : timers (outcome (onChange_ this p)) = timers p.
Proof. apply onChange_related. Qed.

Lemma timers_init this p : timers (outcome (init this p)) = timers p.
Proof.
  unfold init. destruct (element_ this p) as [e|]; [|done].
  repeat (apply timers_andThen;
          [| intros q; first [ apply timers_classList_add
                             | apply timers_updateClasses
                             | apply timers_addEventListener
                             | apply timers_btn_addEventListener
                             | apply timers_appendChild
                             | idtac ]]).
  - apply timers_appendChild.
  - destruct (has_class RIPPLE_EFFECT q this); [|done].
    apply timers_andThen; [apply timers_classList_add|].
    intros r. apply timers_appendChild.
Qed.

(** No method of the prototype takes a pending call off the queue. *)
Lemma methods_keep_timers :
  Forall (λ m, ∀ this p, timers p `prefix_of` timers (outcome (m this p)))
         prototype_methods.
Proof.
  unfold prototype_methods. repeat apply Forall_cons_2; try apply Forall_nil_2;
    intros this p.
  - by rewrite timers_onChange.
  - unfold onFocus_. by rewrite timers_classList_add.
  - unfold onBlur_. by rewrite timers_classList_remove.
  - by apply prefix_app_r.
  - by rewrite timers_updateClasses.
  - by apply prefix_app_r.
  - by rewrite timers_checkDisabled.
  - by rewrite timers_checkToggleState.
  - unfold disable. rewrite (timers_andThen p); [done| |];
      auto using timers_set_disabled, timers_updateClasses.
  - unfold enable. rewrite (timers_andThen p); [done| |];
      auto using timers_set_disabled, timers_updateClasses.
  - unfold check. rewrite (timers_andThen p); [done| |];
      auto using timers_set_checked, timers_onChange.
  - unfold uncheck. rewrite (timers_andThen p); [done| |];
      auto using timers_set_checked, timers_onChange.
  - by rewrite timers_init.
Qed.

Lemma listeners_for_app type (l1 l2 : list Listener) :
  listeners_for type (l1 ++ l2) = listeners_for type l1 ++ listeners_for type l2.
Proof. unfold listeners_for. apply filter_app. Qed.

Lemma with_timers_twice t1 t2 p : with_timers t2 (with_timers t1 p) = with_timers t2 p.
Proof. done. Qed.

Lemma with_timers_same p : with_timers (timers p) p = p.
Proof. apply page_eta. Qed.

(** C8.  A pointer release on the wrapper of an initialised instance, or
    on its ripple container (from where it bubbles to the wrapper), runs
    [onMouseup_], which only queues the blur: at the end of the turn the
    document, and so the control and its focus, is exactly as before, and
    the queue has grown by the call(s) [blur_] made, each with the delay
    [TINY_TIMEOUT], a thousandth of a millisecond.  The control is
    blurred when the event loop later runs the queued call as a turn of
    its own, which does what a blur of the page left by the handler does;
    and no method of the prototype ever removes a queued call. *)
Theorem mouseup_defers_blur this p e :
  element_ this p = Some e →
  listeners_for "mouseup" (listeners e) = [("mouseup", boundMouseUpHandler_)] →
  onMouseup_ this p = Normal (with_timers (timers p ++ [blur_timer this]) p)
  ∧ mouseup_on_wrapper this p = with_timers (timers p ++ [blur_timer this]) p
  ∧ (∀ k, appended e !! k = Some rippleContainer →
       mouseup_on_child this k p
       = with_timers (timers p ++ [blur_timer this; blur_timer this]) p)
  ∧ document (mouseup_on_wrapper this p) = document p
  ∧ (timers p = [] → run_timer (mouseup_on_wrapper this p) = blur_event this p)
  ∧ (0 < TINY_TIMEOUT < 1)%Q
  ∧ Forall (λ m, ∀ i r, timers r `prefix_of` timers (outcome (m i r)))
           prototype_methods.
Proof.
  intros He Hl.
  assert (Hw : mouseup_on_wrapper this p
               = with_timers (timers p ++ [blur_timer this]) p).
  { unfold mouseup_on_wrapper. rewrite He.
    by rewrite dispatchEvent_listeners_for, Hl. }
  split; [done|]. split; [done|]. split.
  { intros k Hk. unfold mouseup_on_child. rewrite He, Hk.
    rewrite dispatchEvent_listeners_for, listeners_for_app, Hl.
    unfold dispatchEvent. simpl.
    unfold with_timers. simpl. by rewrite <- (assoc_L (++)). }
  split; [by rewrite Hw|]. split.
  { intros Ht. rewrite Hw, Ht. unfold run_timer. simpl.
    rewrite with_timers_twice, <- Ht. by rewrite with_timers_same. }
  split; [done|]. apply methods_keep_timers.
Qed.

Lemma mouseup_defers_blur_witness :
  mouseup_on_wrapper 2 tier_page = with_timers [blur_timer 2] tier_page
  ∧ mouseup_on_child 2 2 tier_page = with_timers [blur_timer 2; blur_timer 2] tier_page.
Proof.
  edestruct (mouseup_defers_blur 2 tier_page) as (_ & Hw & Hc & _);
    [vm_compute; reflexivity | vm_compute; reflexivity |].
  split; [exact Hw|]. apply Hc. vm_compute. reflexivity.
Defined.

(** A focused control: the release leaves it focused and the container
    with [is-focused]; the timer's turn blurs it and removes the class. *)
Example mouseup_then_timer :
  let focused_page :=
    outcome (onFocus_ 2 (set_focused 2 true tier_page)) in
  let released := mouseup_on_wrapper 2 focused_page in
  (focused <$> btnElement_ 2 released) = Some true
  ∧ has_class IS_FOCUSED released 2 = true
  ∧ timers released = [blur_timer 2]
  ∧ (focused <$> btnElement_ 2 (run_timer released)) = Some false
  ∧ has_class IS_FOCUSED (run_timer released) 2 = false
  ∧ timers (run_timer released) = [].
Proof. split_and!; vm_compute; reflexivity. Qed.

End deferred_blur.

(** ** The document shell *)
Section shell.
Import HTML.
Implicit Types (m : Loaded) (props : Props) (env e s : string).

Lemma head_children_render env m props :
  head_children (render env m props)
  = head_metadata ++ headComponents props
    ++ (if bool_decide (env = "production") then [inlined_css (stylesStr m)] else []).
Proof. unfold render. simpl. by destruct (bool_decide (env = "production")). Qed.

Lemma head_children_production m props :
  head_children (render "production" m props)
  = (head_metadata ++ headComponents props) ++ [inlined_css (stylesStr m)].
Proof.
  rewrite head_children_render, bool_decide_eq_true_2 by done.
  by rewrite (assoc_L (++)).
Qed.

Lemma head_children_other env m props :
  env ≠ "production" →
  head_children (render env m props) = head_metadata ++ headComponents props.
Proof.
  intros H. rewrite head_children_render, bool_decide_eq_false_2 by done.
  by rewrite app_nil_r.
Qed.

(** C9.  In production mode a failing stylesheet load is caught: the
    error is written to [console.error] and [stylesStr] stays undefined;
    rendering goes on and the head ends with the style element, which
    then carries no stylesheet text.  Outside production mode nothing is
    loaded or logged and the head has no style element of the shell's: it
    is the fixed metadata followed by the injected head components.  The
    rest of the rendered document (attributes of [html], the head before
    the style element, the body with its mount point and injected
    components) is the same whether the load failed or gave a
    stylesheet. *)
Theorem stylesheet_load_guarded e props :
  console_error (load "production" (threw e)) = [e]
  ∧ stylesStr (load "production" (threw e)) = None
  ∧ last (head_children (render "production" (load "production" (threw e)) props))
    = Some (inlined_css None)
  ∧ inlined_stylesheet (render "production" (load "production" (threw e)) props) = None
  ∧ (∀ env req, env ≠ "production" →
       load env req = {| stylesStr := None; console_error := [] |}
       ∧ head_children (render env (load env req) props)
         = head_metadata ++ headComponents props
       ∧ head_children (render "production" (load "production" (threw e)) props)
         = head_children (render env (load env req) props) ++ [inlined_css None])
  ∧ (∀ s,
       let failed := render "production" (load "production" (threw e)) props in
       let inlined := render "production" (load "production" (loaded s)) props in
       inlined_stylesheet inlined = Some s
       ∧ html_props failed = html_props inlined
       ∧ body_node failed = body_node inlined
       ∧ removelast (head_children failed) = removelast (head_children inlined)
       ∧ removelast (head_children failed) = head_metadata ++ headComponents props
       ∧ body_node failed
         = Some (element "body" (bodyAttributes props)
                   (preBodyComponents props
                    ++ [innerHTML "div" [("key", "body"); ("id", "___gatsby")]
                          (Some (body props))]
                    ++ postBodyComponents props))).
Proof.
  split; [done|]. split; [done|].
  split; [by rewrite head_children_production, last_snoc|].
  split.
  { unfold inlined_stylesheet. by rewrite head_children_production, last_snoc. }
  split.
  { intros env req Henv.
    assert (Hl : load env req = {| stylesStr := None; console_error := [] |}).
    { unfold load. by rewrite bool_decide_eq_false_2. }
    split; [done|]. rewrite head_children_other by done. split; [done|].
    by rewrite head_children_production. }
  intros s. cbv zeta. split.
  { unfold inlined_stylesheet. by rewrite head_children_production, last_snoc. }
  split; [done|]. split; [done|].
  rewrite !head_children_production, !removelast_last. done.
Qed.

Lemma stylesheet_load_guarded_witness :
  load "development" (threw "ENOENT") = {| stylesStr := None; console_error := [] |}
  ∧ head_children (render "development" (load "development" (threw "ENOENT")) sample_props)
    = head_metadata ++ headComponents sample_props.
Proof.
  destruct (stylesheet_load_guarded "ENOENT" sample_props)
    as (_ & _ & _ & _ & H & _).
  destruct (H "development" (threw "ENOENT")) as (H1 & H2 & _);
    [vm_compute; discriminate|].
  split; [exact H1 | exact H2].
Defined.

End shell.

(** * Further properties of the code *)

(** ** [onChange_]: what it establishes, how it composes, how it fails *)
Section propagation_more.
Import MaterialRadio.
Implicit Types (p q : Page) (e : Element) (b : Input) (this j r : nat).

Lemma marker_resync e :
  contains JS_RADIO (classList (resync e)) = contains JS_RADIO (classList e).
Proof. by apply contains_resync. Qed.

Lemma propagate_idemp name e : propagate name (propagate name e) = propagate name e.
Proof.
  unfold propagate at 2.
  destruct (contains JS_RADIO (classList e) && _ && _) eqn:Hc; [|unfold propagate; by rewrite Hc].
  unfold propagate. rewrite marker_resync, button_resync.
  replace (prop_MaterialRadio (resync e)) with (prop_MaterialRadio e)
    by (unfold resync; by destruct (button e)).
  rewrite Hc. apply resync_idemp.
Qed.

Lemma markup_ok_propagate name p :
  markup_ok p = true →
  markup_ok (with_document (propagate name <$> document p) p) = true.
Proof.
  rewrite !markup_ok_iff. intros H j e'. unfold element_. simpl.
  rewrite list_lookup_fmap. destruct (document p !! j) as [e|] eqn:He; [simpl|done].
  intros [= <-]. rewrite button_propagate.
  replace (contains JS_RADIO (classList (propagate name e)))
    with (contains JS_RADIO (classList e)).
  - by apply (H j).
  - unfold propagate. case_match; [by rewrite marker_resync | done].
Qed.

Lemma btnElement_propagate name p j :
  btnElement_ j (with_document (propagate name <$> document p) p) = btnElement_ j p.
Proof.
  unfold btnElement_, element_. simpl. rewrite list_lookup_fmap.
  destruct (document p !! j) as [e|]; [simpl|done]. apply button_propagate.
Qed.

Lemma onChange_mirror this p b :
  markup_ok p = true → btnElement_ this p = Some b →
  ∃ p', onChange_ this p = Normal p'
    ∧ ∀ j e bj, element_ j p = Some e → is_widget e = true →
        button e = Some bj → attr_name bj = attr_name b →
        btnElement_ j p' = Some bj
        ∧ has_class IS_CHECKED p' j = checked bj
        ∧ has_class IS_DISABLED p' j = disabled bj.
Proof.
  intros Hok Hb. eexists. split; [by apply onChange_spec|].
  intros j e bj He Hw Hbj Hn. apply andb_true_iff in Hw as [Hm Hp].
  split.
  { rewrite btnElement_propagate, (btnElement_element _ _ _ He). done. }
  rewrite !has_class_fmap, He. unfold propagate.
  rewrite Hm, Hp, Hbj. simpl. rewrite bool_decide_eq_true_2 by (by rewrite Hn).
  simpl. unfold resync. rewrite Hbj. simpl. unfold contains. split.
  - destruct (checked bj) eqn:Hc.
    + apply bool_decide_eq_true_2. by apply synced_checked.
    + apply bool_decide_eq_false_2. rewrite synced_checked. by rewrite Hc.
  - destruct (disabled bj) eqn:Hd.
    + apply bool_decide_eq_true_2. by apply synced_disabled.
    + apply bool_decide_eq_false_2. rewrite synced_disabled. by rewrite Hd.
Qed.

(** X1.  In a document that meets the markup contract, after [onChange_]
    of an instance with control [b] every widget instance whose control has
    the name attribute of [b] mirrors its control, which is unchanged: it
    carries [is-checked] exactly when the control is checked and
    [is-disabled] exactly when it is disabled. *)
Theorem onChange_mirrors this p b :
  markup_ok p = true → btnElement_ this p = Some b →
  ∃ p', onChange_ this p = Normal p'
    ∧ ∀ j e bj, element_ j p = Some e → is_widget e = true →
        button e = Some bj → attr_name bj = attr_name b →
        btnElement_ j p' = Some bj
        ∧ has_class IS_CHECKED p' j = checked bj
        ∧ has_class IS_DISABLED p' j = disabled bj.
Proof. apply onChange_mirror. Qed.

Lemma onChange_mirrors_witness :
  ∃ p', onChange_ 0 late_sibling_page = Normal p'
    ∧ has_class IS_CHECKED late_sibling_page 0 = true
    ∧ has_class IS_CHECKED p' 0 = false.
Proof.
  edestruct (onChange_mirrors 0 late_sibling_page) as (p' & Hp' & Hm);
    [vm_compute; reflexivity | vm_compute; reflexivity |].
  exists p'. split; [exact Hp'|]. split; [vm_compute; reflexivity|].
  edestruct (Hm 0) as (_ & Hc & _);
    [vm_compute; reflexivity | vm_compute; reflexivity | vm_compute; reflexivity
    | vm_compute; reflexivity |].
  exact Hc.
Defined.

(** X2.  In a document that meets the markup contract [onChange_] is
    idempotent: run again on the page it left, it leaves that page. *)
Theorem onChange_idempotent this p b :
  markup_ok p = true → btnElement_ this p = Some b →
  onChange_ this p >> onChange_ this = onChange_ this p.
Proof.
  intros Hok Hb. rewrite (onChange_spec _ _ _ Hok Hb). simpl.
  rewrite (onChange_spec _ _ b).
  - f_equal. unfold with_document. simpl. f_equal.
    rewrite <- list_fmap_compose. apply list_fmap_ext.
    intros i e _. apply propagate_idemp.
  - by apply markup_ok_propagate.
  - by rewrite btnElement_propagate.
Qed.

Lemma onChange_idempotent_witness :
  onChange_ 1 late_sibling_page >> onChange_ 1 = onChange_ 1 late_sibling_page.
Proof.
  eapply onChange_idempotent; vm_compute; reflexivity.
Defined.

(** X3.  Whether it returns or throws, [onChange_] writes nothing but the
    classes [is-checked] and [is-disabled]: on the page it leaves, every
    element is, class list apart, what it was (its control with its
    checked, disabled and focus state, its listeners, its appended nodes,
    its widget property), every other class is carried by the elements
    that carried it, and the timer queue is unchanged. *)
Theorem onChange_writes_two_classes this p :
  timers (outcome (onChange_ this p)) = timers p
  ∧ ∀ j, erase_classes <$> element_ j (outcome (onChange_ this p))
         = erase_classes <$> element_ j p
         ∧ btnElement_ j (outcome (onChange_ this p)) = btnElement_ j p
         ∧ ∀ c, c ≠ IS_CHECKED → c ≠ IS_DISABLED →
                has_class c (outcome (onChange_ this p)) j = has_class c p j.
Proof.
  destruct (onChange_related this p) as [Ht H]. split; [done|].
  intros j. destruct (H j) as [He Hc]. split; [done|].
  split; [by apply erased_button | done].
Qed.

Lemma updateClasses_other this p j :
  j ≠ this → element_ j (outcome (updateClasses_ this p)) = element_ j p.
Proof.
  intros Hj. destruct (btnElement_ this p) as [b|] eqn:Hb.
  - apply btnElement_Some in Hb as (e & He & Hb).
    rewrite (updateClasses_spec _ _ _ _ He Hb). simpl.
    apply element_set_element_ne. by intros ->.
  - by rewrite updateClasses_throws.
Qed.

(** The loop touches no element outside the collection it runs over. *)
Lemma onChange_loop_untouched this radios : ∀ p j,
  j ∉ radios → element_ j (outcome (onChange_loop this radios p)) = element_ j p.
Proof.
  induction radios as [|r rest IH]; intros p j Hj; [done|].
  apply not_elem_of_cons in Hj as [Hjr Hj]. simpl.
  destruct (btnElement_ r p); [|done].
  destruct (btnElement_ this p); [|done].
  case_bool_decide; [|by apply IH].
  case_bool_decide; [|by apply IH].
  pose proof (updateClasses_other r p j Hjr) as Hu.
  destruct (updateClasses_ r p) as [q|q]; simpl in *; [|done].
  by rewrite IH.
Qed.

(** The loop stops at a marker element without control, with the page the
    iterations before it have left. *)
Lemma onChange_loop_throws_at this l1 r l2 : ∀ p,
  btnElement_ r p = None →
  onChange_loop this (l1 ++ r :: l2) p = Throw (outcome (onChange_loop this l1 p)).
Proof.
  induction l1 as [|r1 l1 IH]; intros p Hr; simpl; [by rewrite Hr|].
  destruct (btnElement_ r1 p); [|done].
  destruct (btnElement_ this p); [|done].
  case_bool_decide; [|by apply IH].
  case_bool_decide; [|by apply IH].
  destruct (updateClasses_related r1 p) as [_ Hrel].
  destruct (Hrel r) as [He _]. apply erased_button in He.
  destruct (updateClasses_ r1 p) as [q|q]; simpl in *; [|done].
  apply IH. by rewrite He.
Qed.

Lemma getElementsByClassName_split c p r :
  has_class c p r = true →
  ∃ l1 l2, getElementsByClassName c p = l1 ++ r :: l2 ∧ ∀ j, j ∈ l1 → j < r.
Proof.
  intros Hr. pose proof Hr as Hlt.
  apply has_class_true in Hlt as (e & He & _). apply lookup_lt_Some in He.
  unfold getElementsByClassName.
  replace (length (document p)) with (r + S (length (document p) - S r)) by lia.
  rewrite seq_app. simpl. rewrite filter_app, filter_cons_True by done.
  eexists _, _. split; [done|]. intros j Hj.
  apply list_elem_of_filter in Hj as [_ Hj]. apply elem_of_seq in Hj. lia.
Qed.

Lemma onChange_throws_at this p r :
  has_class JS_RADIO p r = true → btnElement_ r p = None →
  returns (onChange_ this p) = false
  ∧ ∀ j, (r ≤ j)%nat → element_ j (outcome (onChange_ this p)) = element_ j p.
Proof.
  intros Hm Hr. unfold onChange_.
  destruct (getElementsByClassName_split _ _ _ Hm) as (l1 & l2 & -> & Hl1).
  rewrite onChange_loop_throws_at by done. split; [done|].
  intros j Hj. simpl. apply onChange_loop_untouched.
  intros Hin. apply Hl1 in Hin. lia.
Qed.

Lemma has_class_native_set_checked c a this v p j :
  has_class c (with_document (native_set_checked a this v (document p)) p) j
  = has_class c p j.
Proof.
  unfold has_class.
  pose proof (element_native_set_checked a this v p j) as Hj.
  unfold element_ in Hj. rewrite Hj.
  destruct (document p !! j) as [e|]; [simpl|done].
  destruct (bool_decide (j = this)); [done|].
  destruct v; [|done]. by rewrite classList_uncheck_if_grouped.
Qed.

Lemma classList_native_set_checked a this v p j :
  classList <$> element_ j (with_document (native_set_checked a this v (document p)) p)
  = classList <$> element_ j p.
Proof.
  rewrite element_native_set_checked.
  destruct (element_ j p) as [e|]; [simpl|done]. f_equal.
  destruct (bool_decide (j = this)); [done|].
  destruct v; [|done]. by rewrite classList_uncheck_if_grouped.
Qed.

Lemma btnElement_None_native_set_checked a this v p j :
  btnElement_ j p = None →
  btnElement_ j (with_document (native_set_checked a this v (document p)) p) = None.
Proof.
  unfold btnElement_. rewrite element_native_set_checked.
  destruct (element_ j p) as [e|]; [simpl|done]. intros He.
  destruct (bool_decide (j = this)).
  - unfold input_set_checked. simpl. by rewrite He.
  - destruct v; [|done]. unfold uncheck_if_grouped. by rewrite He.
Qed.

(** X4.  A marker element without a control, at position [r], makes
    [onChange_] of any instance throw, and the elements from [r] on are
    left as they were, whatever their name.  [check()] of an instance is
    then not atomic: its control is set to checked, the call throws, and no
    class list from [r] on is brought up to date. *)
Theorem onChange_stops_at_missing_control this p r :
  has_class JS_RADIO p r = true → btnElement_ r p = None →
  returns (onChange_ this p) = false
  ∧ (∀ j, (r ≤ j)%nat → element_ j (outcome (onChange_ this p)) = element_ j p)
  ∧ ∀ b, btnElement_ this p = Some b →
      returns (check this p) = false
      ∧ checked <$> btnElement_ this (outcome (check this p)) = Some true
      ∧ ∀ j, (r ≤ j)%nat → classList <$> element_ j (outcome (check this p))
                     = classList <$> element_ j p.
Proof.
  intros Hm Hr. destruct (onChange_throws_at this p r Hm Hr) as [Hret Hfrom].
  split; [done|]. split; [done|]. intros b Hb.
  destruct (set_checked_spec this true p b Hb) as [Hset Hb1].
  set (p1 := with_document (native_set_checked b this true (document p)) p) in *.
  destruct (onChange_throws_at this p1 r) as [Hret1 Hfrom1].
  { unfold p1. by rewrite has_class_native_set_checked. }
  { unfold p1. by apply btnElement_None_native_set_checked. }
  unfold check. rewrite Hset. cbn [andThen]. split; [done|]. split.
  - destruct (onChange_related this p1) as [_ H]. destruct (H this) as [He _].
    rewrite (erased_button _ _ _ He), Hb1. done.
  - intros j Hj. rewrite Hfrom1 by done. unfold p1.
    apply classList_native_set_checked.
Qed.

Lemma onChange_stops_at_missing_control_witness :
  returns (onChange_ 0 broken_page) = false
  ∧ returns (check 0 broken_page) = false
  ∧ checked <$> btnElement_ 0 (outcome (check 0 broken_page)) = Some true
  ∧ classList <$> element_ 2 (outcome (check 0 broken_page))
    = classList <$> element_ 2 broken_page.
Proof.
  edestruct (onChange_stops_at_missing_control 0 broken_page 1) as (H1 & _ & H2);
    [vm_compute; reflexivity | vm_compute; reflexivity |].
  split; [exact H1|].
  edestruct H2 as (H3 & H4 & H5); [vm_compute; reflexivity|].
  split; [exact H3|]. split; [exact H4|]. apply H5. lia.
Defined.

(** On [broken_page]: [check()] on the first radio button sets its control,
    gets its own class right (it comes before the broken element) and
    throws; the third, unchecked by the platform, keeps [is-checked]. *)
Example check_on_broken_page :
  (checked <$> btnElement_ 0 (outcome (check 0 broken_page))) = Some true
  ∧ has_class IS_CHECKED (outcome (check 0 broken_page)) 0 = true
  ∧ (checked <$> btnElement_ 2 (outcome (check 0 broken_page))) = Some false
  ∧ has_class IS_CHECKED (outcome (check 0 broken_page)) 2 = true.
Proof. split_and!; vm_compute; reflexivity. Qed.

End propagation_more.

(** ** [check] and [uncheck], [disable] and [enable]: composition *)
Section setters_more.
Import MaterialRadio.
Implicit Types (p q : Page) (e : Element) (b : Input) (this j : nat) (v : bool).

Lemma setChecked_unfold this v p :
  setChecked this v p = set_checked this v p >> onChange_ this.
Proof. by destruct v. Qed.

Lemma is_widget_set_step a this v j e :
  is_widget (if bool_decide (j = this) then input_set_checked v e
             else if v then uncheck_if_grouped a e else e)
  = is_widget e.
Proof.
  unfold is_widget. destruct (bool_decide (j = this)); [done|].
  destruct v; [|done]. unfold uncheck_if_grouped.
  by destruct (button e) as [bj|]; [destruct (radio_group a bj)|].
Qed.

Lemma with_button_same e : with_button (button e) e = e.
Proof. by destruct e. Qed.

Lemma with_checked_twice v b : with_checked v (with_checked v b) = with_checked v b.
Proof. done. Qed.

Lemma radio_group_ext a a' b b' :
  attr_name a' = attr_name a → form_owner a' = form_owner a →
  attr_name b' = attr_name b → form_owner b' = form_owner b →
  radio_group a' b' = radio_group a b.
Proof. unfold radio_group. by intros -> -> -> ->. Qed.

(** The platform's write, done again on an element whose control is as the
    first write left it, changes nothing. *)
Lemma set_step_settled a a' this v j e y :
  attr_name a' = attr_name a → form_owner a' = form_owner a →
  button y = button (if bool_decide (j = this) then input_set_checked v e
                     else if v then uncheck_if_grouped a e else e) →
  (if bool_decide (j = this) then input_set_checked v y
   else if v then uncheck_if_grouped a' y else y) = y.
Proof.
  intros Hn Hf Hy. destruct (bool_decide (j = this)).
  - unfold input_set_checked in *. simpl in Hy.
    transitivity (with_button (button y) y); [|apply with_button_same].
    f_equal. rewrite Hy. by destruct (button e).
  - destruct v; [|done]. unfold uncheck_if_grouped in *.
    destruct (button e) as [be|] eqn:Hbe.
    + destruct (radio_group a be) eqn:Hg.
      * unfold input_set_checked in Hy. simpl in Hy. rewrite Hbe in Hy.
        simpl in Hy. rewrite Hy.
        rewrite (radio_group_ext a a' be (with_checked false be)) by done.
        rewrite Hg. unfold input_set_checked.
        transitivity (with_button (button y) y); [|apply with_button_same].
        f_equal. by rewrite Hy.
      * rewrite Hy, Hbe. by rewrite (radio_group_ext a a' be be), Hg.
    + by rewrite Hy, Hbe.
Qed.

(** X5.  In a document that meets the markup contract, [check()] and
    [uncheck()] return normally with the control of the instance set as
    asked, and every widget instance whose control has the same name
    attribute, inside or outside its radio button group, then mirrors the
    state its own control has now: [is-checked] exactly when checked,
    [is-disabled] exactly when disabled.  [uncheck()] changes no other
    control. *)
Theorem setChecked_mirrors this v p b :
  markup_ok p = true → btnElement_ this p = Some b →
  ∃ p', setChecked this v p = Normal p'
    ∧ checked <$> btnElement_ this p' = Some v
    ∧ (v = false → ∀ j, j ≠ this → btnElement_ j p' = btnElement_ j p)
    ∧ ∀ j e bj, element_ j p = Some e → is_widget e = true →
        btnElement_ j p' = Some bj → attr_name bj = attr_name b →
        has_class IS_CHECKED p' j = checked bj
        ∧ has_class IS_DISABLED p' j = disabled bj.
Proof.
  intros Hok Hb.
  destruct (set_checked_spec this v p b Hb) as [Hset Hb1].
  pose proof (markup_ok_native_set_checked b this v p Hok) as Hok1.
  destruct (onChange_mirror this _ _ Hok1 Hb1) as (p' & Hp' & Hm).
  assert (Hctl : ∀ j, btnElement_ j p'
    = btnElement_ j (with_document (native_set_checked b this v (document p)) p)).
  { intros j. rewrite (onChange_spec _ _ _ Hok1 Hb1) in Hp'.
    injection Hp' as <-.
    exact (btnElement_propagate (attr_name b)
             (with_document (native_set_checked b this v (document p)) p) j). }
  exists p'. split; [rewrite setChecked_unfold, Hset; exact Hp'|].
  split; [by rewrite Hctl, Hb1|]. split.
  - intros -> j Hj. rewrite Hctl. unfold btnElement_.
    rewrite element_native_set_checked.
    destruct (element_ j p) as [e|]; [simpl|done].
    by rewrite bool_decide_eq_false_2.
  - intros j e bj He Hw Hbj Hn. rewrite Hctl in Hbj.
    pose proof (element_native_set_checked b this v p j) as He1.
    rewrite He in He1. simpl in He1.
    edestruct (Hm j) as (_ & Hc & Hd); [exact He1 | | | | by split].
    + by rewrite is_widget_set_step.
    + by rewrite <- (btnElement_element _ _ _ He1).
    + done.
Qed.

Lemma setChecked_mirrors_witness :
  ∃ p', setChecked 1 true two_forms_page = Normal p'
    ∧ (checked <$> btnElement_ 1 p') = Some true
    ∧ has_class IS_CHECKED p' 0 = true.
Proof.
  edestruct (setChecked_mirrors 1 true two_forms_page) as (p' & Hp' & H1 & _ & Hm);
    [vm_compute; reflexivity | vm_compute; reflexivity |].
  exists p'. split; [exact Hp'|]. split; [exact H1|].
  pose proof Hp' as Hv. vm_compute in Hv. injection Hv as <-.
  edestruct (Hm 0) as [Hc _];
    [vm_compute; reflexivity | vm_compute; reflexivity | vm_compute; reflexivity
    | vm_compute; reflexivity | exact Hc].
Defined.

(** X6.  In a document that meets the markup contract [check()] and
    [uncheck()] are idempotent: a second call right after the first leaves
    the page the first call left. *)
Theorem setChecked_idempotent this v p b :
  markup_ok p = true → btnElement_ this p = Some b →
  setChecked this v p >> setChecked this v = setChecked this v p.
Proof.
  intros Hok Hb. rewrite setChecked_unfold.
  destruct (set_checked_spec this v p b Hb) as [Hset Hb1].
  pose proof (markup_ok_native_set_checked b this v p Hok) as Hok1.
  rewrite Hset. cbn [andThen]. rewrite (onChange_spec _ _ _ Hok1 Hb1).
  cbn [andThen]. rewrite setChecked_unfold.
  set (p1 := with_document (native_set_checked b this v (document p)) p) in *.
  set (n := attr_name (with_checked v b)).
  set (p2 := with_document (propagate n <$> document p1) p1).
  assert (Hb2 : btnElement_ this p2 = Some (with_checked v b)).
  { unfold p2. by rewrite btnElement_propagate. }
  assert (Hok2 : markup_ok p2 = true) by by apply markup_ok_propagate.
  destruct (set_checked_spec this v p2 _ Hb2) as [Hset2 Hb3].
  pose proof (markup_ok_native_set_checked (with_checked v b) this v p2 Hok2) as Hok3.
  rewrite Hset2. cbn [andThen]. rewrite (onChange_spec _ _ _ Hok3 Hb3).
  f_equal. unfold p2, p1, with_document. simpl. f_equal.
  apply list_eq. intros j. unfold native_set_checked.
  rewrite !list_lookup_fmap, !list_lookup_imap, !list_lookup_fmap, !list_lookup_imap.
  destruct (document p !! j) as [e|]; [simpl|done]. f_equal.
  rewrite (set_step_settled b (with_checked v b) this v j e); [| done | done |].
  - apply propagate_idemp.
  - apply button_propagate.
Qed.

Lemma setChecked_idempotent_witness :
  setChecked 2 true tier_page >> setChecked 2 true = setChecked 2 true tier_page
  ∧ setChecked 0 false tier_page >> setChecked 0 false = setChecked 0 false tier_page.
Proof.
  split; eapply setChecked_idempotent; vm_compute; reflexivity.
Defined.

Lemma with_disabled_same v b : disabled b = v → with_disabled v b = b.
Proof. intros <-. by destruct b. Qed.

Lemma remove_add_absent c l : c ∉ l → remove c (add c l) = l.
Proof.
  intros H. unfold add. rewrite (proj2 (contains_false c l) H).
  unfold remove. rewrite filter_app, filter_cons_False by (by intros []).
  rewrite filter_nil, app_nil_r. by apply remove_absent.
Qed.

(** X7.  For an enabled instance whose container does not carry
    [is-disabled] and whose [is-checked] class mirrors its control,
    [disable()] followed by [enable()] is a round trip: the page is exactly
    what it was. *)
Theorem disable_enable_round_trip this p e b :
  element_ this p = Some e → button e = Some b →
  disabled b = false → contains IS_DISABLED (classList e) = false →
  mirrors_checked e = true →
  disable this p >> enable this = Normal p.
Proof.
  intros He Hb Hd Hcl Hm. unfold mirrors_checked in Hm. rewrite Hb in Hm.
  apply bool_decide_eq_true in Hm. apply contains_false in Hcl.
  assert (Hin : IS_CHECKED ∈ classList e ↔ checked b = true)
    by by rewrite <- contains_true, Hm.
  pose proof (setDisabled_spec this true p e b He Hb) as Hdis.
  unfold setDisabled in Hdis. rewrite Hdis. cbn [andThen].
  set (e1 := with_classList _ _).
  assert (He1 : element_ this (set_element this e1 p) = Some e1)
    by by eapply element_set_element_eq.
  pose proof (setDisabled_spec this false _ e1 (with_disabled true b) He1 eq_refl) as Hen.
  unfold setDisabled in Hen. rewrite Hen, set_element_twice. f_equal.
  rewrite <- (set_element_same this e p He) at 2. f_equal.
  assert (Hc1 : classList e1 = add IS_DISABLED (classList e)).
  { change (classList e1)
      with (toggle IS_CHECKED (checked b) (add IS_DISABLED (classList e))).
    apply toggle_fixed. rewrite elem_of_add.
    pose proof checked_not_disabled. tauto. }
  assert (Hc2 : synced (with_disabled false (with_disabled true b)) (classList e1)
                = classList e).
  { change (synced _ (classList e1))
      with (toggle IS_CHECKED (checked b) (remove IS_DISABLED (classList e1))).
    rewrite Hc1, remove_add_absent by done. by apply toggle_fixed. }
  rewrite Hc2.
  change (with_disabled false (with_disabled true b)) with (with_disabled false b).
  rewrite (with_disabled_same false b Hd).
  unfold e1, with_classList, with_button. simpl.
  destruct e. simpl in *. by rewrite Hb.
Qed.

Lemma disable_enable_round_trip_witness :
  disable 1 tier_page >> enable 1 = Normal tier_page.
Proof.
  eapply disable_enable_round_trip; vm_compute; reflexivity.
Defined.

(** X8.  [disable()] and [enable()] are idempotent, with or without a
    control: a second call right after the first gives the completion of
    the first. *)
Theorem setDisabled_idempotent this v p :
  setDisabled this v p >> setDisabled this v = setDisabled this v p.
Proof.
  destruct (btnElement_ this p) as [b|] eqn:Hb.
  - apply btnElement_Some in Hb as (e & He & Hb).
    rewrite (setDisabled_spec _ _ _ _ _ He Hb). cbn [andThen].
    erewrite setDisabled_spec;
      [| by eapply element_set_element_eq | reflexivity].
    rewrite set_element_twice. do 2 f_equal.
    unfold with_classList, with_button. simpl.
    change (with_disabled v (with_disabled v b)) with (with_disabled v b).
    by rewrite synced_idemp.
  - assert (Ht : setDisabled this v p = Throw p).
    { destruct v; unfold setDisabled, disable, enable, set_disabled;
        rewrite Hb; by destruct (element_ this p). }
    by rewrite Ht.
Qed.

End setters_more.

(** ** [init]: failure and repetition *)
Section initialisation_more.
Import MaterialRadio.
Implicit Types (p q : Page) (e : Element) (b : Input) (this j : nat).

(** X9.  On a container without control [init] throws, at the first
    [addEventListener] on the missing control, and not before it has
    changed the container: the two circles are appended, and for a
    container with the ripple class so are the ignore-events class and the
    ripple container, which already carries its [mouseup] listener.  The
    container gets no listener of its own, the classes are not
    synchronised and [is-upgraded] is not added; no other element and no
    timer is touched. *)
Theorem init_throws_without_control this p e :
  element_ this p = Some e → button e = None →
  init this p
  = Throw (set_element this
      {| classList := if contains RIPPLE_EFFECT (classList e)
                      then add RIPPLE_IGNORE_EVENTS (classList e)
                      else classList e;
         appended := appended e ++ [outerCircle; innerCircle]
                     ++ (if contains RIPPLE_EFFECT (classList e)
                         then [rippleContainer] else []);
         button := None;
         listeners := listeners e;
         prop_MaterialRadio := prop_MaterialRadio e |} p).
Proof.
  intros He Hb. unfold init. rewrite He.
  rewrite <- (set_element_same this e p He) at 1.
  rewrite (appendChild_at _ _ p e _ He). step.
  rewrite (appendChild_at _ _ p e _ He). step.
  erewrite has_class_element by by eapply element_set_element_eq.
  step. destruct (contains RIPPLE_EFFECT (classList e)).
  - rewrite (classList_add_at _ _ p e _ He). step.
    rewrite (appendChild_at _ _ p e _ He). step.
    erewrite btn_addEventListener_throws;
      [| by eapply element_set_element_eq | done].
    step. do 2 f_equal. unfold with_appended, with_classList. step.
    rewrite Hb. f_equal. by rewrite <- !(assoc_L (++)).
  - step.
    erewrite btn_addEventListener_throws;
      [| by eapply element_set_element_eq | done].
    step. do 2 f_equal. unfold with_appended, with_classList. step.
    rewrite Hb. f_equal. by rewrite <- !(assoc_L (++)).
Qed.

Lemma init_throws_without_control_witness :
  returns (init 1 broken_page) = false
  ∧ (appended <$> element_ 1 (outcome (init 1 broken_page)))
    = Some [outerCircle; innerCircle]
  ∧ has_class IS_UPGRADED (outcome (init 1 broken_page)) 1 = false.
Proof.
  erewrite (init_throws_without_control 1 broken_page);
    [| vm_compute; reflexivity | vm_compute; reflexivity].
  split_and!; vm_compute; reflexivity.
Defined.

Lemma ripple_after_init b l :
  contains RIPPLE_EFFECT
    (add IS_UPGRADED
       (synced b (if contains RIPPLE_EFFECT l then add RIPPLE_IGNORE_EVENTS l else l)))
  = contains RIPPLE_EFFECT l.
Proof.
  unfold contains at 1 3. apply bool_decide_ext.
  rewrite elem_of_add, synced_other by done.
  destruct (contains RIPPLE_EFFECT l).
  - rewrite elem_of_add. split; [|tauto].
    intros [Heq|[Heq|H]]; [discriminate Heq | discriminate Heq | exact H].
  - split; [|tauto]. intros [Heq|H]; [discriminate Heq | exact H].
Qed.

Lemma classes_after_second_init b l :
  let l1 := add IS_UPGRADED
              (synced b (if contains RIPPLE_EFFECT l
                         then add RIPPLE_IGNORE_EVENTS l else l)) in
  add IS_UPGRADED
    (synced b (if contains RIPPLE_EFFECT l1 then add RIPPLE_IGNORE_EVENTS l1 else l1))
  = l1.
Proof.
  intros l1.
  assert (Hup : IS_UPGRADED ∈ l1) by (apply elem_of_add; by left).
  assert (Hfix : synced b l1 = l1).
  { apply synced_fixed; unfold l1; rewrite elem_of_add.
    - rewrite synced_disabled. split; [|tauto].
      intros [Heq|H]; [discriminate Heq | exact H].
    - rewrite synced_checked. split; [|tauto].
      intros [Heq|H]; [discriminate Heq | exact H]. }
  unfold l1 at 1. rewrite ripple_after_init. fold l1.
  destruct (contains RIPPLE_EFFECT l) eqn:Hr.
  - assert (Hi : RIPPLE_IGNORE_EVENTS ∈ l1).
    { unfold l1. apply elem_of_add. right.
      apply synced_other; [done..|]. apply elem_of_add. by left. }
    rewrite (add_present _ _ Hi), Hfix. by apply add_present.
  - rewrite Hfix. by apply add_present.
Qed.

(** X10.  Nothing in [init] guards against a second run.  On a container
    with its control a second [init] returns normally and leaves the class
    list as the first left it, but appends the decoration a second time
    and attaches every listener a second time (so that one [change] event
    will run [onChange_] twice). *)
Theorem init_twice this p e b :
  element_ this p = Some e → button e = Some b →
  ∃ p1 p2 e1 e2 b1 b2,
    init this p = Normal p1 ∧ init this p1 = Normal p2
    ∧ element_ this p1 = Some e1 ∧ button e1 = Some b1
    ∧ element_ this p2 = Some e2 ∧ button e2 = Some b2
    ∧ classList e2 = classList e1
    ∧ appended e2
      = appended e1 ++ [outerCircle; innerCircle]
        ++ (if contains RIPPLE_EFFECT (classList e) then [rippleContainer] else [])
    ∧ input_listeners b2
      = input_listeners b1 ++ [("change", boundChangeHandler_);
                               ("focus", boundFocusHandler_);
                               ("blur", boundBlurHandler_)]
    ∧ listeners e2 = listeners e1 ++ [("mouseup", boundMouseUpHandler_)]
    ∧ listeners_for "change" (input_listeners b2)
      = listeners_for "change" (input_listeners b)
        ++ [("change", boundChangeHandler_); ("change", boundChangeHandler_)].
Proof.
  intros He Hb.
  pose proof (init_present this p e b He Hb) as H1.
  set (e1 := Build_Element _ _ _ _ _) in H1.
  set (b1 := with_input_listeners
               (input_listeners b ++ [("change", boundChangeHandler_);
                                      ("focus", boundFocusHandler_);
                                      ("blur", boundBlurHandler_)]) b).
  assert (He1 : element_ this (set_element this e1 p) = Some e1)
    by by eapply element_set_element_eq.
  pose proof (init_present this _ e1 b1 He1 eq_refl) as H2.
  rewrite set_element_twice in H2.
  set (e2 := Build_Element _ _ _ _ _) in H2.
  exists (set_element this e1 p), (set_element this e2 p), e1, e2, b1.
  eexists. split; [exact H1|]. split; [exact H2|]. split; [exact He1|].
  split; [reflexivity|]. split; [by eapply element_set_element_eq|].
  split; [reflexivity|]. split.
  { exact (classes_after_second_init b (classList e)). }
  split.
  { unfold e2. simpl. by rewrite ripple_after_init. }
  split; [done|]. split; [done|].
  unfold e2, b1. simpl. by rewrite !listeners_for_app, <- (assoc_L (++)).
Qed.

Lemma init_twice_witness :
  ∃ p1 p2, init 2 tier_markup = Normal p1 ∧ init 2 p1 = Normal p2
    ∧ (classList <$> element_ 2 p2) = (classList <$> element_ 2 p1).
Proof.
  edestruct (init_twice 2 tier_markup)
    as (p1 & p2 & e1 & e2 & b1 & b2 & H1 & H2 & He1 & _ & He2 & _ & Hc & _);
    [vm_compute; reflexivity | vm_compute; reflexivity |].
  exists p1, p2. split; [exact H1|]. split; [exact H2|].
  rewrite He1, He2. simpl. by rewrite Hc.
Defined.

End initialisation_more.

(** ** Event handlers: what they leave alone *)
Section handlers_more.
Import MaterialRadio.
Implicit Types (p q : Page) (e : Element) (b : Input) (this j : nat) (h : Handler).

Lemma classList_add_erased this c p j :
  erase_classes <$> element_ j (outcome (classList_add this c p))
  = erase_classes <$> element_ j p.
Proof.
  unfold classList_add. destruct (element_ this p) as [e|] eqn:He; [simpl|done].
  by apply (erase_set_element _ e).
Qed.

Lemma classList_remove_erased this c p j :
  erase_classes <$> element_ j (outcome (classList_remove this c p))
  = erase_classes <$> element_ j p.
Proof.
  unfold classList_remove. destruct (element_ this p) as [e|] eqn:He; [simpl|done].
  by apply (erase_set_element _ e).
Qed.

Lemma run_handler_erased h this p j :
  erase_classes <$> element_ j (outcome (run_handler h this p))
  = erase_classes <$> element_ j p.
Proof.
  destruct h; simpl.
  - destruct (onChange_related this p) as [_ H]. by destruct (H j).
  - apply classList_add_erased.
  - apply classList_remove_erased.
  - done.
Qed.

Lemma dispatchEvent_erased type ls this : ∀ p j,
  erase_classes <$> element_ j (dispatchEvent type ls this p)
  = erase_classes <$> element_ j p.
Proof.
  unfold dispatchEvent. induction ls as [|l ls IH]; intros p j; [done|]. simpl.
  rewrite IH. case_bool_decide; [apply run_handler_erased | done].
Qed.

(** X11.  No event handler writes anything but class lists and the timer
    queue: after any of the four handlers, and after the dispatch of any
    event to any list of listeners, every element of the document is,
    class list apart, what it was; in particular every control keeps its
    checked, disabled and focus state. *)
Theorem handlers_write_classes_only this p j :
  (∀ h, erase_classes <$> element_ j (outcome (run_handler h this p))
        = erase_classes <$> element_ j p
        ∧ btnElement_ j (outcome (run_handler h this p)) = btnElement_ j p)
  ∧ (∀ type ls, erase_classes <$> element_ j (dispatchEvent type ls this p)
                = erase_classes <$> element_ j p
                ∧ btnElement_ j (dispatchEvent type ls this p) = btnElement_ j p).
Proof.
  split.
  - intros h. pose proof (run_handler_erased h this p j) as H.
    split; [done | by apply erased_button].
  - intros type ls. pose proof (dispatchEvent_erased type ls this p j) as H.
    split; [done | by apply erased_button].
Qed.

Lemma focused_after_blur this p b :
  btnElement_ this p = Some b →
  focused <$> btnElement_ this (blur_event this p) = Some false.
Proof.
  intros Hb. unfold blur_event, btnElement_blur. rewrite Hb.
  destruct (focused b) eqn:Hf; simpl.
  - rewrite (erased_button _ _ _ (dispatchEvent_erased _ _ _ _ _)).
    by rewrite (btnElement_set_focused _ _ _ _ Hb).
  - rewrite Hb. simpl. by rewrite Hf.
Qed.

(** X12.  Blurring the control of an instance is idempotent, whatever
    listeners the control has: a second blur right after the first, such as
    the second of the two deferred calls a release on the ripple container
    queues, finds the control without focus, fires no event and leaves the
    page as it is. *)
Theorem blur_event_idempotent this p :
  blur_event this (blur_event this p) = blur_event this p.
Proof.
  destruct (btnElement_ this p) as [b|] eqn:Hb.
  - pose proof (focused_after_blur this p b Hb) as Hf.
    destruct (btnElement_ this (blur_event this p)) as [b'|] eqn:Hb'; [|done].
    injection Hf as Hf.
    unfold blur_event at 1. unfold btnElement_blur. by rewrite Hb', Hf.
  - assert (Hp : blur_event this p = p).
    { unfold blur_event, btnElement_blur. by rewrite Hb. }
    by rewrite !Hp.
Qed.

End handlers_more.

(** ** The focus class over the life of a page *)
Section focus_never_shown.
Import MaterialRadio.
Implicit Types (p q : Page) (e : Element) (b : Input) (this j : nat) (h : Handler).

Lemma unfocused_spec e :
  unfocused e = true ↔
    contains IS_FOCUSED (classList e) = false
    ∧ forallb not_onFocus (listeners e) = true
    ∧ (∀ b, button e = Some b → forallb not_onFocus (input_listeners b) = true)
    ∧ forallb (λ s, forallb not_onFocus (span_listeners_of s)) (appended e) = true.
Proof.
  unfold unfocused. rewrite !andb_true_iff, negb_true_iff.
  destruct (button e) as [b|]; split.
  - intros [[[? ?] ?] ?]. repeat split; try done. by intros ? [= <-].
  - intros (? & ? & Hb & ?). repeat split; try done. by apply Hb.
  - intros [[[? ?] ?] ?]. repeat split; done.
  - intros (? & ? & Hb & ?). repeat split; done.
Qed.

Lemma all_unfocused_spec p :
  all_unfocused p = true ↔ ∀ j e, element_ j p = Some e → unfocused e = true.
Proof.
  unfold all_unfocused, element_. rewrite forallb_forall. split.
  - intros H j e Hj. apply H, list_elem_of_In. by eapply list_elem_of_lookup_2.
  - intros H e He. apply list_elem_of_In, list_elem_of_lookup in He as [j Hj]. eauto.
Qed.

Lemma set_element_unfocused this e p :
  all_unfocused p = true → unfocused e = true →
  all_unfocused (set_element this e p) = true.
Proof.
  rewrite !all_unfocused_spec. intros Hp He j e'.
  unfold element_, set_element. simpl. intros Hj.
  apply list_lookup_insert_Some in Hj as [(_ & <- & _)|[_ Hj]]; [done|].
  by apply (Hp j).
Qed.

Lemma with_timers_unfocused t p : all_unfocused (with_timers t p) = all_unfocused p.
Proof. done. Qed.

Lemma andThen_unfocused c (f : Page → Completion) :
  all_unfocused (outcome c) = true →
  (∀ q, all_unfocused q = true → all_unfocused (outcome (f q)) = true) →
  all_unfocused (outcome (c >> f)) = true.
Proof. destruct c; simpl; auto. Qed.

Lemma classList_add_unfocused this c p :
  c ≠ IS_FOCUSED → all_unfocused p = true →
  all_unfocused (outcome (classList_add this c p)) = true.
Proof.
  intros Hc Hp. unfold classList_add.
  destruct (element_ this p) as [e|] eqn:He; [simpl|done].
  apply set_element_unfocused; [done|].
  pose proof (proj1 (all_unfocused_spec p) Hp _ _ He) as Hu.
  apply unfocused_spec in Hu as (Hf & ? & ? & ?). apply unfocused_spec. simpl.
  repeat split; try done.
  apply contains_false. apply contains_false in Hf.
  rewrite elem_of_add. intros [?|?]; [by apply Hc | done].
Qed.

Lemma classList_remove_unfocused this c p :
  all_unfocused p = true →
  all_unfocused (outcome (classList_remove this c p)) = true.
Proof.
  intros Hp. unfold classList_remove.
  destruct (element_ this p) as [e|] eqn:He; [simpl|done].
  apply set_element_unfocused; [done|].
  pose proof (proj1 (all_unfocused_spec p) Hp _ _ He) as Hu.
  apply unfocused_spec in Hu as (Hf & ? & ? & ?). apply unfocused_spec. simpl.
  repeat split; try done.
  apply contains_false. apply contains_false in Hf.
  rewrite elem_of_remove. by intros [_ ?].
Qed.

Lemma checkDisabled_unfocused this p :
  all_unfocused p = true → all_unfocused (outcome (checkDisabled this p)) = true.
Proof.
  intros Hp. unfold checkDisabled. destruct (btnElement_ this p) as [b|]; [|done].
  destruct (disabled b);
    [by apply classList_add_unfocused | by apply classList_remove_unfocused].
Qed.

Lemma checkToggleState_unfocused this p :
  all_unfocused p = true → all_unfocused (outcome (checkToggleState this p)) = true.
Proof.
  intros Hp. unfold checkToggleState. destruct (btnElement_ this p) as [b|]; [|done].
  destruct (checked b);
    [by apply classList_add_unfocused | by apply classList_remove_unfocused].
Qed.

Lemma updateClasses_unfocused this p :
  all_unfocused p = true → all_unfocused (outcome (updateClasses_ this p)) = true.
Proof.
  intros Hp. apply andThen_unfocused; [by apply checkDisabled_unfocused|].
  intros q Hq. by apply checkToggleState_unfocused.
Qed.

Lemma onChange_loop_unfocused this radios : ∀ p,
  all_unfocused p = true → all_unfocused (outcome (onChange_loop this radios p)) = true.
Proof.
  induction radios as [|r rest IH]; intros p Hp; [done|]. simpl.
  destruct (btnElement_ r p) as [button|]; [|done].
  destruct (btnElement_ this p) as [btn|]; [|done].
  case_bool_decide; [|by apply IH].
  apply andThen_unfocused; [|apply IH].
  case_bool_decide; [by apply updateClasses_unfocused | done].
Qed.

Lemma onChange_unfocused this p :
  all_unfocused p = true → all_unfocused (outcome (onChange_ this p)) = true.
Proof. apply onChange_loop_unfocused. Qed.

Lemma unfocused_with_checked v e :
  unfocused (with_button (with_checked v <$> button e) e) = unfocused e.
Proof. unfold unfocused. simpl. by destruct (button e). Qed.

Lemma unfocused_with_focused v e :
  unfocused (with_button (with_focused v <$> button e) e) = unfocused e.
Proof. unfold unfocused. simpl. by destruct (button e). Qed.

Lemma native_set_checked_unfocused b this v p :
  all_unfocused p = true →
  all_unfocused (with_document (native_set_checked b this v (document p)) p) = true.
Proof.
  rewrite !all_unfocused_spec. intros Hp j e'.
  unfold element_, native_set_checked. simpl. rewrite list_lookup_imap.
  destruct (document p !! j) as [e|] eqn:He; [simpl|done]. intros [= <-].
  pose proof (Hp j e He) as Hu.
  case_bool_decide; [unfold input_set_checked; by rewrite unfocused_with_checked|].
  destruct v; [|done]. unfold uncheck_if_grouped.
  destruct (button e) as [bj|] eqn:Hbj; [|done].
  destruct (radio_group b bj); [|done].
  unfold input_set_checked. by rewrite unfocused_with_checked.
Qed.

Lemma set_checked_unfocused this v p :
  all_unfocused p = true → all_unfocused (outcome (set_checked this v p)) = true.
Proof.
  intros Hp. unfold set_checked. destruct (btnElement_ this p) as [b|]; [simpl|done].
  by apply native_set_checked_unfocused.
Qed.

Lemma set_disabled_unfocused this v p :
  all_unfocused p = true → all_unfocused (outcome (set_disabled this v p)) = true.
Proof.
  intros Hp. unfold set_disabled, btnElement_.
  destruct (element_ this p) as [e|] eqn:He; [simpl|done].
  destruct (button e) as [b|] eqn:Hb; [simpl|done].
  apply set_element_unfocused; [done|].
  pose proof (proj1 (all_unfocused_spec p) Hp _ _ He) as Hu.
  apply unfocused_spec in Hu as (? & ? & Hl & ?). apply unfocused_spec. simpl.
  repeat split; try done. intros ? [= <-]. exact (Hl b Hb).
Qed.

Lemma set_focused_unfocused this v p :
  all_unfocused p = true → all_unfocused (set_focused this v p) = true.
Proof.
  intros Hp. unfold set_focused. destruct (element_ this p) as [e|] eqn:He; [|done].
  apply set_element_unfocused; [done|]. rewrite unfocused_with_focused.
  by apply (proj1 (all_unfocused_spec p) Hp _ _ He).
Qed.

Lemma appendChild_unfocused this s p :
  forallb not_onFocus (span_listeners_of s) = true →
  all_unfocused p = true → all_unfocused (outcome (appendChild this s p)) = true.
Proof.
  intros Hs Hp. unfold appendChild.
  destruct (element_ this p) as [e|] eqn:He; [simpl|done].
  apply set_element_unfocused; [done|].
  pose proof (proj1 (all_unfocused_spec p) Hp _ _ He) as Hu.
  apply unfocused_spec in Hu as (? & ? & ? & Ha). apply unfocused_spec. simpl.
  repeat split; try done. rewrite forallb_app, Ha. simpl. by rewrite Hs.
Qed.

Lemma addEventListener_unfocused this type h p :
  h ≠ bound_onFocus_ →
  all_unfocused p = true →
  all_unfocused (outcome (addEventListener this type h p)) = true.
Proof.
  intros Hh Hp. unfold addEventListener.
  destruct (element_ this p) as [e|] eqn:He; [simpl|done].
  apply set_element_unfocused; [done|].
  pose proof (proj1 (all_unfocused_spec p) Hp _ _ He) as Hu.
  apply unfocused_spec in Hu as (? & Hl & ? & ?). apply unfocused_spec. simpl.
  repeat split; try done. rewrite forallb_app, Hl. simpl.
  unfold not_onFocus. simpl. by destruct h.
Qed.

Lemma btn_addEventListener_unfocused this type h p :
  h ≠ bound_onFocus_ →
  all_unfocused p = true →
  all_unfocused (outcome (btn_addEventListener this type h p)) = true.
Proof.
  intros Hh Hp. unfold btn_addEventListener, btnElement_.
  destruct (element_ this p) as [e|] eqn:He; [simpl|done].
  destruct (button e) as [b|] eqn:Hb; [simpl|done].
  apply set_element_unfocused; [done|].
  pose proof (proj1 (all_unfocused_spec p) Hp _ _ He) as Hu.
  apply unfocused_spec in Hu as (? & ? & Hl & ?). apply unfocused_spec. simpl.
  repeat split; try done. intros ? [= <-]. simpl.
  rewrite forallb_app, (Hl b Hb). simpl.
  unfold not_onFocus. simpl. by destruct h.
Qed.

Lemma init_unfocused this p :
  all_unfocused p = true → all_unfocused (outcome (init this p)) = true.
Proof.
  intros Hp. unfold init. destruct (element_ this p) as [e|]; [|done].
  repeat (apply andThen_unfocused; [|intros q Hq]).
  - by apply appendChild_unfocused.
  - by apply appendChild_unfocused.
  - destruct (has_class RIPPLE_EFFECT q this); [|done].
    apply andThen_unfocused; [by apply classList_add_unfocused|].
    intros q' Hq'. by apply appendChild_unfocused.
  - by apply btn_addEventListener_unfocused.
  - by apply btn_addEventListener_unfocused.
  - by apply btn_addEventListener_unfocused.
  - by apply addEventListener_unfocused.
  - by apply updateClasses_unfocused.
  - by apply classList_add_unfocused.
Qed.

Lemma upgradeElement_unfocused this p :
  all_unfocused p = true → all_unfocused (outcome (upgradeElement this p)) = true.
Proof.
  intros Hp. apply andThen_unfocused; [by apply init_unfocused|].
  intros q Hq. destruct (element_ this q) as [e|] eqn:He; [simpl|done].
  apply set_element_unfocused; [done|].
  by apply (proj1 (all_unfocused_spec q) Hq _ _ He).
Qed.

Lemma run_handler_unfocused h this p :
  h ≠ bound_onFocus_ →
  all_unfocused p = true → all_unfocused (outcome (run_handler h this p)) = true.
Proof.
  intros Hh Hp. destruct h; simpl; [|done| |done].
  - by apply onChange_unfocused.
  - by apply classList_remove_unfocused.
Qed.

Lemma dispatchEvent_unfocused type ls this : ∀ p,
  forallb not_onFocus ls = true →
  all_unfocused p = true → all_unfocused (dispatchEvent type ls this p) = true.
Proof.
  unfold dispatchEvent. induction ls as [|l ls IH]; intros p Hls Hp; [done|].
  simpl in Hls. apply andb_true_iff in Hls as [Hl Hls]. simpl.
  apply IH; [done|]. case_bool_decide; [|done].
  apply run_handler_unfocused; [|done].
  unfold not_onFocus in Hl. by destruct (l.2).
Qed.

Lemma button_listeners_unfocused this p :
  all_unfocused p = true → forallb not_onFocus (button_listeners this p) = true.
Proof.
  intros Hp. unfold button_listeners, btnElement_.
  destruct (element_ this p) as [e|] eqn:He; [simpl|done].
  destruct (button e) as [b|] eqn:Hb; [|done].
  pose proof (proj1 (all_unfocused_spec p) Hp _ _ He) as Hu.
  apply unfocused_spec in Hu as (? & ? & Hl & ?). by apply Hl.
Qed.

Lemma btnElement_blur_unfocused this p :
  all_unfocused p = true → all_unfocused (outcome (btnElement_blur this p)) = true.
Proof.
  intros Hp. pose proof (button_listeners_unfocused this p Hp) as Hl.
  unfold btnElement_blur. unfold button_listeners in Hl.
  destruct (btnElement_ this p) as [b|]; [|done].
  destruct (focused b); [simpl|done].
  apply dispatchEvent_unfocused; [done|]. by apply set_focused_unfocused.
Qed.

Lemma run_step_unfocused s p :
  all_unfocused p = true → all_unfocused (run_step s p) = true.
Proof.
  intros Hp. destruct s; simpl.
  - by apply init_unfocused.
  - by apply upgradeElement_unfocused.
  - by apply checkDisabled_unfocused.
  - by apply checkToggleState_unfocused.
  - apply andThen_unfocused; [by apply set_disabled_unfocused|].
    intros q Hq. by apply updateClasses_unfocused.
  - apply andThen_unfocused; [by apply set_disabled_unfocused|].
    intros q Hq. by apply updateClasses_unfocused.
  - apply andThen_unfocused; [by apply set_checked_unfocused|].
    intros q Hq. by apply onChange_unfocused.
  - apply andThen_unfocused; [by apply set_checked_unfocused|].
    intros q Hq. by apply onChange_unfocused.
  - apply dispatchEvent_unfocused; [by apply button_listeners_unfocused|].
    by apply set_focused_unfocused.
  - by apply btnElement_blur_unfocused.
  - unfold user_change. destruct (btnElement_ this p) as [b|]; [|done].
    pose proof (native_set_checked_unfocused b this v p Hp) as Hq.
    apply dispatchEvent_unfocused; [by apply button_listeners_unfocused | done].
  - unfold mouseup_on_wrapper. destruct (element_ this p) as [e|] eqn:He; [|done].
    pose proof (proj1 (all_unfocused_spec p) Hp _ _ He) as Hu.
    apply unfocused_spec in Hu as (? & ? & ? & ?).
    by apply dispatchEvent_unfocused.
  - unfold mouseup_on_child. destruct (element_ this p) as [e|] eqn:He; [|done].
    destruct (appended e !! k) as [s|] eqn:Hs; [|done].
    pose proof (proj1 (all_unfocused_spec p) Hp _ _ He) as Hu.
    apply unfocused_spec in Hu as (? & Hl & ? & Ha).
    apply dispatchEvent_unfocused; [|done].
    rewrite forallb_app, Hl, andb_true_r.
    rewrite forallb_forall in Ha. apply Ha, list_elem_of_In.
    by eapply list_elem_of_lookup_2.
  - unfold run_timer. destruct (timers p) as [|t rest]; [done|].
    by apply btnElement_blur_unfocused.
Qed.

Lemma run_steps_unfocused history : ∀ p,
  all_unfocused p = true → all_unfocused (run_steps history p) = true.
Proof.
  unfold run_steps. induction history as [|s history IH]; intros p Hp; [done|].
  simpl. by apply IH, run_step_unfocused.
Qed.

(** X13.  The focus class is never shown.  Take a page on which no
    container carries [is-focused] and no listener is [onFocus_] (any page as
    it comes from the markup is one).  Whatever then happens to it, in any
    order and any number of times: widgets constructed or upgraded, public
    methods called, the user focusing, blurring, selecting, releasing the
    pointer, timers firing; no container carries [is-focused] afterwards.
    [init] binds [onChange_] where [onFocus_] was meant, so nothing ever
    calls the one method that adds the class. *)
Theorem is_focused_never_added history p j :
  all_unfocused p = true →
  has_class IS_FOCUSED (run_steps history p) j = false.
Proof.
  intros Hp. apply (run_steps_unfocused history) in Hp.
  unfold has_class. destruct (document (run_steps history p) !! j) as [e|] eqn:He; [|done].
  pose proof (proj1 (all_unfocused_spec _) Hp _ _ He) as Hu.
  by apply unfocused_spec in Hu as (? & _).
Qed.

Lemma is_focused_never_added_witness :
  all_unfocused tier_markup = true
  ∧ has_class IS_FOCUSED
      (run_steps [upgrade 0; upgrade 1; upgrade 2; event_focus 1; event_change 1 true;
                  event_mouseup_child 2 2; timer_fires; event_blur 1; call_disable 0]
         tier_markup) 1 = false.
Proof.
  split; [reflexivity|].
  apply (is_focused_never_added
           [upgrade 0; upgrade 1; upgrade 2; event_focus 1; event_change 1 true;
            event_mouseup_child 2 2; timer_fires; event_blur 1; call_disable 0]
           tier_markup 1).
  reflexivity.
Defined.

End focus_never_shown.

(** ** Classes that are not the widget's *)
Section foreign_classes.
Import MaterialRadio.
Implicit Types (p q : Page) (e : Element) (b : Input) (this j : nat) (h : Handler).

Variable c : string.
Hypothesis Hforeign : c ∉ own_classes.

Lemma foreign_ne c' : c' ∈ own_classes → c ≠ c'.
Proof. intros H ->. by apply Hforeign. Qed.

Lemma keeps_class_refl p : keeps_class c p p.
Proof. by split. Qed.

Lemma keeps_class_trans p q r :
  keeps_class c p q → keeps_class c q r → keeps_class c p r.
Proof.
  intros [Hl1 H1] [Hl2 H2]. split; [by rewrite Hl2|].
  intros j. by rewrite H2.
Qed.

Lemma keeps_andThen p c0 (f : Page → Completion) :
  keeps_class c p (outcome c0) →
  (∀ q, keeps_class c q (outcome (f q))) →
  keeps_class c p (outcome (c0 >> f)).
Proof.
  intros H0 Hf. destruct c0 as [q|q]; simpl in *; [|done].
  eapply keeps_class_trans; [exact H0 | apply Hf].
Qed.

Lemma keeps_set_element this e e' p :
  element_ this p = Some e →
  contains c (classList e') = contains c (classList e) →
  keeps_class c p (set_element this e' p).
Proof.
  intros He Hcl. split.
  - unfold set_element. simpl. apply length_insert.
  - intros j. destruct (decide (this = j)) as [<-|Hne].
    + rewrite (has_class_element _ _ _ e') by by eapply element_set_element_eq.
      by rewrite (has_class_element _ _ _ e).
    + unfold has_class, set_element, with_document. simpl.
      by rewrite list_lookup_insert_ne.
Qed.

Lemma keeps_with_timers t p : keeps_class c p (with_timers t p).
Proof. by split. Qed.

Lemma classList_add_keeps this c' p :
  c' ∈ own_classes → keeps_class c p (outcome (classList_add this c' p)).
Proof.
  intros Hc'. apply foreign_ne in Hc'. unfold classList_add.
  destruct (element_ this p) as [e|] eqn:He; [simpl|apply keeps_class_refl].
  apply (keeps_set_element _ e); [done|]. simpl.
  apply bool_decide_ext. rewrite elem_of_add. intuition congruence.
Qed.

Lemma classList_remove_keeps this c' p :
  c' ∈ own_classes → keeps_class c p (outcome (classList_remove this c' p)).
Proof.
  intros Hc'. apply foreign_ne in Hc'. unfold classList_remove.
  destruct (element_ this p) as [e|] eqn:He; [simpl|apply keeps_class_refl].
  apply (keeps_set_element _ e); [done|]. simpl.
  apply bool_decide_ext. rewrite elem_of_remove. intuition congruence.
Qed.

Lemma own_focused : IS_FOCUSED ∈ own_classes.
Proof. apply (bool_decide_unpack _). vm_compute. exact I. Qed.

Lemma own_disabled : IS_DISABLED ∈ own_classes.
Proof. apply (bool_decide_unpack _). vm_compute. exact I. Qed.

Lemma own_checked : IS_CHECKED ∈ own_classes.
Proof. apply (bool_decide_unpack _). vm_compute. exact I. Qed.

Lemma own_upgraded : IS_UPGRADED ∈ own_classes.
Proof. apply (bool_decide_unpack _). vm_compute. exact I. Qed.

Lemma own_ignore_events : RIPPLE_IGNORE_EVENTS ∈ own_classes.
Proof. apply (bool_decide_unpack _). vm_compute. exact I. Qed.

Lemma checkDisabled_keeps this p : keeps_class c p (outcome (checkDisabled this p)).
Proof.
  unfold checkDisabled. destruct (btnElement_ this p) as [b|]; [|apply keeps_class_refl].
  destruct (disabled b);
    [apply classList_add_keeps | apply classList_remove_keeps]; apply own_disabled.
Qed.

Lemma checkToggleState_keeps this p :
  keeps_class c p (outcome (checkToggleState this p)).
Proof.
  unfold checkToggleState.
  destruct (btnElement_ this p) as [b|]; [|apply keeps_class_refl].
  destruct (checked b);
    [apply classList_add_keeps | apply classList_remove_keeps]; apply own_checked.
Qed.

Lemma updateClasses_keeps this p : keeps_class c p (outcome (updateClasses_ this p)).
Proof.
  apply keeps_andThen; [apply checkDisabled_keeps|].
  intros q. apply checkToggleState_keeps.
Qed.

Lemma onChange_loop_keeps this radios : ∀ p,
  keeps_class c p (outcome (onChange_loop this radios p)).
Proof.
  induction radios as [|r rest IH]; intros p; [apply keeps_class_refl|]. simpl.
  destruct (btnElement_ r p) as [button|]; [|apply keeps_class_refl].
  destruct (btnElement_ this p) as [btn|]; [|apply keeps_class_refl].
  case_bool_decide; [|apply IH].
  apply keeps_andThen; [|apply IH].
  case_bool_decide; [apply updateClasses_keeps | apply keeps_class_refl].
Qed.

Lemma onChange_keeps this p : keeps_class c p (outcome (onChange_ this p)).
Proof. apply onChange_loop_keeps. Qed.

Lemma native_set_checked_keeps b this v p :
  keeps_class c p (with_document (native_set_checked b this v (document p)) p).
Proof.
  split.
  - unfold native_set_checked. simpl. apply length_imap.
  - intros j. unfold has_class, native_set_checked. simpl. rewrite list_lookup_imap.
    destruct (document p !! j) as [e|]; [simpl|done].
    case_bool_decide; [done|]. destruct v; [|done].
    unfold uncheck_if_grouped. destruct (button e) as [bj|]; [|done].
    by destruct (radio_group b bj).
Qed.

Lemma set_checked_keeps this v p : keeps_class c p (outcome (set_checked this v p)).
Proof.
  unfold set_checked. destruct (btnElement_ this p) as [b|]; [simpl|apply keeps_class_refl].
  apply native_set_checked_keeps.
Qed.

Lemma set_disabled_keeps this v p : keeps_class c p (outcome (set_disabled this v p)).
Proof.
  unfold set_disabled.
  destruct (element_ this p) as [e|] eqn:He; [|apply keeps_class_refl].
  destruct (btnElement_ this p) as [b|]; [simpl|apply keeps_class_refl].
  by apply (keeps_set_element _ e).
Qed.

Lemma set_focused_keeps this v p : keeps_class c p (set_focused this v p).
Proof.
  unfold set_focused.
  destruct (element_ this p) as [e|] eqn:He; [|apply keeps_class_refl].
  by apply (keeps_set_element _ e).
Qed.

Lemma appendChild_keeps this s p : keeps_class c p (outcome (appendChild this s p)).
Proof.
  unfold appendChild.
  destruct (element_ this p) as [e|] eqn:He; [simpl|apply keeps_class_refl].
  by apply (keeps_set_element _ e).
Qed.

Lemma addEventListener_keeps this type h p :
  keeps_class c p (outcome (addEventListener this type h p)).
Proof.
  unfold addEventListener.
  destruct (element_ this p) as [e|] eqn:He; [simpl|apply keeps_class_refl].
  by apply (keeps_set_element _ e).
Qed.

Lemma btn_addEventListener_keeps this type h p :
  keeps_class c p (outcome (btn_addEventListener this type h p)).
Proof.
  unfold btn_addEventListener.
  destruct (element_ this p) as [e|] eqn:He; [|apply keeps_class_refl].
  destruct (btnElement_ this p) as [b|]; [simpl|apply keeps_class_refl].
  by apply (keeps_set_element _ e).
Qed.

Lemma init_keeps this p : keeps_class c p (outcome (init this p)).
Proof.
  unfold init. destruct (element_ this p) as [e|]; [|apply keeps_class_refl].
  repeat (apply keeps_andThen; [|intros q]).
  - apply appendChild_keeps.
  - apply appendChild_keeps.
  - destruct (has_class RIPPLE_EFFECT q this); [|apply keeps_class_refl].
    apply keeps_andThen; [apply classList_add_keeps, own_ignore_events|].
    intros q'. apply appendChild_keeps.
  - apply btn_addEventListener_keeps.
  - apply btn_addEventListener_keeps.
  - apply btn_addEventListener_keeps.
  - apply addEventListener_keeps.
  - apply updateClasses_keeps.
  - apply classList_add_keeps, own_upgraded.
Qed.

Lemma upgradeElement_keeps this p : keeps_class c p (outcome (upgradeElement this p)).
Proof.
  apply keeps_andThen; [apply init_keeps|].
  intros q. destruct (element_ this q) as [e|] eqn:He; [simpl|apply keeps_class_refl].
  by apply (keeps_set_element _ e).
Qed.

Lemma run_handler_keeps h this p : keeps_class c p (outcome (run_handler h this p)).
Proof.
  destruct h; simpl.
  - apply onChange_keeps.
  - apply classList_add_keeps, own_focused.
  - apply classList_remove_keeps, own_focused.
  - apply keeps_with_timers.
Qed.

Lemma dispatchEvent_keeps type ls this : ∀ p,
  keeps_class c p (dispatchEvent type ls this p).
Proof.
  unfold dispatchEvent. induction ls as [|l ls IH]; intros p; [apply keeps_class_refl|].
  simpl. eapply keeps_class_trans; [|apply IH].
  case_bool_decide; [apply run_handler_keeps | apply keeps_class_refl].
Qed.

Lemma btnElement_blur_keeps this p : keeps_class c p (outcome (btnElement_blur this p)).
Proof.
  unfold btnElement_blur. destruct (btnElement_ this p) as [b|]; [|apply keeps_class_refl].
  destruct (focused b); [simpl|apply keeps_class_refl].
  eapply keeps_class_trans; [apply set_focused_keeps | apply dispatchEvent_keeps].
Qed.

Lemma run_step_keeps s p : keeps_class c p (run_step s p).
Proof.
  destruct s; simpl.
  - apply init_keeps.
  - apply upgradeElement_keeps.
  - apply checkDisabled_keeps.
  - apply checkToggleState_keeps.
  - apply keeps_andThen; [apply set_disabled_keeps | apply updateClasses_keeps].
  - apply keeps_andThen; [apply set_disabled_keeps | apply updateClasses_keeps].
  - apply keeps_andThen; [apply set_checked_keeps | apply onChange_keeps].
  - apply keeps_andThen; [apply set_checked_keeps | apply onChange_keeps].
  - eapply keeps_class_trans; [apply set_focused_keeps | apply dispatchEvent_keeps].
  - apply btnElement_blur_keeps.
  - unfold user_change. destruct (btnElement_ this p) as [b|]; [|apply keeps_class_refl].
    eapply keeps_class_trans; [apply native_set_checked_keeps | apply dispatchEvent_keeps].
  - unfold mouseup_on_wrapper.
    destruct (element_ this p) as [e|]; [apply dispatchEvent_keeps | apply keeps_class_refl].
  - unfold mouseup_on_child. destruct (element_ this p) as [e|]; [|apply keeps_class_refl].
    destruct (appended e !! k) as [s|]; [apply dispatchEvent_keeps | apply keeps_class_refl].
  - unfold run_timer. destruct (timers p) as [|t rest]; [apply keeps_class_refl|].
    eapply keeps_class_trans; [apply (keeps_with_timers rest) | apply btnElement_blur_keeps].
Qed.

Lemma run_steps_keeps history : ∀ p, keeps_class c p (run_steps history p).
Proof.
  unfold run_steps. induction history as [|s history IH]; intros p; [apply keeps_class_refl|].
  simpl. eapply keeps_class_trans; [apply run_step_keeps | apply IH].
Qed.

Lemma keeps_getElementsByClassName p q :
  keeps_class c p q → getElementsByClassName c q = getElementsByClassName c p.
Proof.
  intros [Hl H]. unfold getElementsByClassName. rewrite Hl.
  apply list_filter_iff. intros j. by rewrite H.
Qed.

End foreign_classes.

(** X14.  The widget keeps to its own classes.  Whatever happens to a
    page, in any order and any number of times (widgets constructed or
    upgraded, public methods called, events delivered, timers run), no
    container is added or removed, and a class other than [is-focused],
    [is-disabled], [is-checked], [is-upgraded] and
    [mdl-js-ripple-effect--ignore-events] is on a container afterwards
    exactly when it was there before.  In particular the containers that
    carry the marker class [mdl-js-radio] stay the same; none of the nodes
    [init] creates and appends inside a container carries that class, so
    this is the collection [onChange_] scans. *)
Theorem foreign_classes_kept c history p j :
  c ∉ own_classes →
  length (document (run_steps history p)) = length (document p)
  ∧ MaterialRadio.has_class c (run_steps history p) j = MaterialRadio.has_class c p j
  ∧ MaterialRadio.getElementsByClassName MaterialRadio.JS_RADIO (run_steps history p)
    = MaterialRadio.getElementsByClassName MaterialRadio.JS_RADIO p
  ∧ Forall (λ s, span_carries MaterialRadio.JS_RADIO s = false)
           [MaterialRadio.outerCircle; MaterialRadio.innerCircle;
            MaterialRadio.rippleContainer].
Proof.
  intros Hc. pose proof (run_steps_keeps c Hc history p) as H.
  split; [apply H|]. split; [apply H|]. split.
  - apply keeps_getElementsByClassName, run_steps_keeps.
    apply (bool_decide_unpack _). vm_compute. exact I.
  - repeat apply Forall_cons_2; try apply Forall_nil_2; vm_compute; reflexivity.
Qed.

Lemma foreign_classes_kept_witness :
  ("mdl-radio" ∉ own_classes)
  ∧ MaterialRadio.has_class "mdl-radio"
      (run_steps [upgrade 0; upgrade 2; event_focus 0; call_check 2; call_disable 0;
                  event_mouseup 2; timer_fires] tier_markup) 2
    = MaterialRadio.has_class "mdl-radio" tier_markup 2.
Proof.
  assert (H : "mdl-radio" ∉ own_classes).
  { apply (bool_decide_unpack _). vm_compute. exact I. }
  split; [exact H|].
  apply (foreign_classes_kept "mdl-radio"
           [upgrade 0; upgrade 2; event_focus 0; call_check 2; call_disable 0;
            event_mouseup 2; timer_fires] tier_markup 2 H).
Defined.

(** ** The page that adds the bot *)
Section add_page.
Import AddPage.
Implicit Types (meta : Meta) (versions : list Version) (version : Version).

Lemma cards_render meta versions : cards (render meta versions) = imap card versions.
Proof. done. Qed.

Lemma version_of_card i version : version_of (card i version) = Some version.
Proof. by destruct version. Qed.

Lemma mapM_version_of_imap versions : ∀ (f : nat → Version → Node),
  (∀ i version, version_of (f i version) = Some version) →
  mapM version_of (imap f versions) = Some versions.
Proof.
  induction versions as [|version versions IH]; intros f Hf; [done|].
  cbn [imap mapM]. rewrite Hf. cbn [mbind option_bind].
  rewrite (IH (f ∘ S)); [done|]. intros i v. apply Hf.
Qed.

(** X15.  The page shows one card per entry of [versions.json], in the
    order of the file: the container has as many cards as there are
    entries, none for an empty list, and the React key of the card at
    position [i] is [i], so the keys are pairwise distinct. *)
Theorem cards_one_per_version meta versions :
  length (cards (render meta versions)) = length versions
  ∧ key_of <$> cards (render meta versions) = Some <$> seq 0 (length versions)
  ∧ NoDup (key_of <$> cards (render meta versions))
  ∧ cards (render meta []) = [].
Proof.
  rewrite cards_render.
  assert (Hk : key_of <$> imap card versions = Some <$> seq 0 (length versions)).
  { apply list_eq. intros i.
    rewrite !list_lookup_fmap, list_lookup_imap.
    destruct (versions !! i) as [version|] eqn:Hi; simpl.
    - rewrite lookup_seq_lt by by eapply lookup_lt_Some. done.
    - rewrite lookup_seq_ge by by apply lookup_ge_None. done. }
  split; [apply length_imap|]. split; [exact Hk|]. split; [|done].
  rewrite Hk. apply NoDup_fmap_2; [|apply NoDup_seq].
  by intros ?? [= ->].
Qed.

(** X16.  Nothing of an entry is lost on the page: reading the link
    target, the image source, the heading and the paragraph back from the
    cards of the rendered page gives the list of versions it was rendered
    from; two lists that render to the same page are the same list. *)
Theorem render_shows_versions meta versions :
  versions_of (render meta versions) = Some versions
  ∧ ∀ meta' versions', render meta' versions' = render meta versions → versions' = versions.
Proof.
  assert (H : ∀ m vs, versions_of (render m vs) = Some vs).
  { intros m vs. unfold versions_of. rewrite cards_render.
    apply mapM_version_of_imap, version_of_card. }
  split; [apply H|].
  intros meta' versions' Heq. pose proof (H meta' versions') as H'.
  rewrite Heq, H in H'. by injection H'.
Qed.

End add_page.

(** ** The attributes of the document element *)
Section html_attributes.
Import HTML.

Lemma prop_value_app_fixed key attrs value :
  prop_value key (attrs ++ [(key, value)]) = Some value.
Proof.
  unfold prop_value. rewrite filter_app, filter_cons_True, filter_nil by done.
  by rewrite last_snoc.
Qed.

Lemma prop_value_app_other key attrs kv :
  kv.1 ≠ key → prop_value key (attrs ++ [kv]) = prop_value key attrs.
Proof.
  intros H. unfold prop_value.
  by rewrite filter_app, filter_cons_False, filter_nil, app_nil_r.
Qed.

(** X17.  The attributes the site passes in [htmlAttributes] are spread
    first and the two written out in [render] come after them, so the
    document element always has [lang='en-US'] and the Open Graph
    [prefix], whatever [htmlAttributes] says about them; every other
    attribute has the value [htmlAttributes] gives it, in either build
    mode. *)
Theorem html_lang_and_prefix_fixed NODE_ENV m props :
  prop_value "lang" (html_props (render NODE_ENV m props)) = Some "en-US"
  ∧ prop_value "prefix" (html_props (render NODE_ENV m props))
    = Some "og: http://ogp.me/ns#"
  ∧ ∀ key, key ≠ "lang" → key ≠ "prefix" →
      prop_value key (html_props (render NODE_ENV m props))
      = prop_value key (htmlAttributes props).
Proof.
  assert (Hp : html_props (render NODE_ENV m props)
               = (htmlAttributes props ++ [("lang", "en-US")])
                 ++ [("prefix", "og: http://ogp.me/ns#")]).
  { unfold render. simpl. by rewrite <- (assoc_L (++)). }
  rewrite Hp. split; [|split].
  - rewrite prop_value_app_other by done. apply prop_value_app_fixed.
  - apply prop_value_app_fixed.
  - intros key H1 H2. rewrite !prop_value_app_other; [done| |]; simpl; congruence.
Qed.

End html_attributes.

(** ** The public methods: when they throw, what they leave alone *)
Section public_methods.
Import MaterialRadio.
Implicit Types (p q : Page) (e : Element) (b : Input) (this j : nat) (v : bool).

(** X18.  On an instance that has no control (constructed on a missing
    container, or on one without a [.mdl-radio__button]) each public method
    throws before it has written anything: the page is left as it was. *)
Theorem public_methods_need_control this p :
  btnElement_ this p = None →
  Forall (λ m : nat → Page → Completion, m this p = Throw p)
         [checkDisabled; checkToggleState; disable; enable; check; uncheck].
Proof.
  intros Hb.
  assert (Hd : ∀ v, set_disabled this v p = Throw p).
  { intros v. unfold set_disabled. rewrite Hb. by destruct (element_ this p). }
  assert (Hc : ∀ v, set_checked this v p = Throw p).
  { intros v. unfold set_checked. by rewrite Hb. }
  repeat apply Forall_cons_2; try apply Forall_nil_2.
  - unfold checkDisabled. by rewrite Hb.
  - unfold checkToggleState. by rewrite Hb.
  - unfold disable. by rewrite Hd.
  - unfold enable. by rewrite Hd.
  - unfold check. by rewrite Hc.
  - unfold uncheck. by rewrite Hc.
Qed.

Lemma public_methods_need_control_witness :
  btnElement_ 1 broken_page = None
  ∧ Forall (λ m : nat → Page → Completion, m 1 broken_page = Throw broken_page)
           [checkDisabled; checkToggleState; disable; enable; check; uncheck].
Proof.
  split; [reflexivity|]. apply (public_methods_need_control 1 broken_page). reflexivity.
Defined.

(** X19.  On an instance with a control the state methods return
    normally: [checkDisabled], [checkToggleState], [disable] and [enable]
    always, [check] and [uncheck] on a page where every marker element has
    a control (the scan of [onChange_] then meets no [null]). *)
Theorem public_methods_return this p b :
  btnElement_ this p = Some b →
  Forall (λ m : nat → Page → Completion, returns (m this p) = true)
         [checkDisabled; checkToggleState; disable; enable]
  ∧ (markup_ok p = true →
     Forall (λ m : nat → Page → Completion, returns (m this p) = true) [check; uncheck]).
Proof.
  intros Hb. pose proof Hb as Hb'. apply btnElement_Some in Hb' as (e & He & Hbe).
  assert (Hc : ∀ v, markup_ok p = true → returns (setChecked this v p) = true).
  { intros v Hok. rewrite setChecked_unfold.
    destruct (set_checked_spec this v p b Hb) as [-> Hb1]. simpl.
    by rewrite (onChange_spec _ _ _ (markup_ok_native_set_checked b this v p Hok) Hb1). }
  split.
  - repeat apply Forall_cons_2; try apply Forall_nil_2.
    + by rewrite (checkDisabled_spec _ _ _ _ He Hbe).
    + by rewrite (checkToggleState_spec _ _ _ _ He Hbe).
    + change (disable this p) with (setDisabled this true p).
      by rewrite (setDisabled_spec _ _ _ _ _ He Hbe).
    + change (enable this p) with (setDisabled this false p).
      by rewrite (setDisabled_spec _ _ _ _ _ He Hbe).
  - intros Hok. repeat apply Forall_cons_2; try apply Forall_nil_2.
    + apply (Hc true Hok).
    + apply (Hc false Hok).
Qed.

Lemma public_methods_return_witness :
  returns (disable 1 tier_page) = true ∧ returns (check 1 tier_page) = true.
Proof.
  edestruct (public_methods_return 1 tier_page) as [H1 H2]; [vm_compute; reflexivity|].
  split.
  - apply Forall_cons_1 in H1 as [_ H1]. apply Forall_cons_1 in H1 as [_ H1].
    apply Forall_cons_1 in H1 as [H1 _]. exact H1.
  - assert (Hok : markup_ok tier_page = true) by (vm_compute; reflexivity).
    specialize (H2 Hok). apply Forall_cons_1 in H2 as [H2 _]. exact H2.
Defined.

Lemma native_set_checked_disabled a this v p j :
  disabled <$> btnElement_ j (with_document (native_set_checked a this v (document p)) p)
  = disabled <$> btnElement_ j p.
Proof.
  unfold btnElement_. rewrite element_native_set_checked.
  destruct (element_ j p) as [e|]; [simpl|done].
  case_bool_decide; [unfold input_set_checked; simpl; by destruct (button e)|].
  destruct v; [|done]. unfold uncheck_if_grouped.
  destruct (button e) as [bj|] eqn:Hbj; [|by rewrite Hbj].
  destruct (radio_group a bj); [simpl|by rewrite Hbj]. by rewrite Hbj.
Qed.

Lemma set_disabled_checked this v p j :
  checked <$> btnElement_ j (outcome (set_disabled this v p))
  = checked <$> btnElement_ j p.
Proof.
  unfold set_disabled. destruct (element_ this p) as [e|] eqn:He; [|done].
  destruct (btnElement_ this p) as [b|] eqn:Hb; [simpl|done].
  destruct (decide (this = j)) as [<-|Hne].
  - unfold btnElement_ at 1. rewrite (element_set_element_eq _ e) by done.
    by rewrite Hb.
  - unfold btnElement_. by rewrite element_set_element_ne.
Qed.

(** X20.  The two states are set independently.  [disable()] and
    [enable()] never change which control is checked, and [check()] and
    [uncheck()] never change which control is disabled: in particular
    [check()] selects a disabled radio button, and leaves it disabled.  This
    holds for every control of the page, whether the call returns or
    throws. *)
Theorem setters_independent this v p j :
  checked <$> btnElement_ j (outcome (setDisabled this v p))
  = checked <$> btnElement_ j p
  ∧ disabled <$> btnElement_ j (outcome (setChecked this v p))
    = disabled <$> btnElement_ j p.
Proof.
  split.
  - assert (H : setDisabled this v p = set_disabled this v p >> updateClasses_ this)
      by by destruct v.
    rewrite H. pose proof (set_disabled_checked this v p j) as H1.
    destruct (set_disabled this v p) as [q|q]; simpl in *; [|done].
    destruct (updateClasses_frame this q j) as [_ Hf].
    by rewrite (erased_button _ _ _ Hf).
  - rewrite setChecked_unfold. unfold set_checked.
    destruct (btnElement_ this p) as [b|]; [simpl|done].
    destruct (onChange_related this
                (with_document (native_set_checked b this v (document p)) p)) as [_ Hr].
    destruct (Hr j) as [Hf _].
    rewrite (erased_button _ _ _ Hf). apply native_set_checked_disabled.
Qed.

End public_methods.
